(** * Library administration: borrow-request workflow, loans and book export

    A shallow embedding of the Django admin actions of [catalog/admin.py]
    and of the export helpers of [catalog/utils/exports.py], followed by the
    properties the specification states about them.

    Conventions of the embedding:
    - a database table is a finite map from primary keys to rows
      ([gmap Z row]); a Django [QuerySet] is the lazy predicate that selects
      rows of its table, so [filter]/[exclude] compose predicates and
      [update]/[count] run them against the table they are given;
    - an admin action threads the database and the message list of the
      request through a small state monad;
    - Python exceptions are an explicit result type, [try ... except] is a
      handler on it;
    - [str] values are Rocq strings read as sequences of ASCII code points
      (characters from 128 on are neither whitespace nor letters here). *)

From Stdlib Require Import ZArith List String Ascii Lia Permutation.
From Stdlib Require Import DecimalString DecimalPos DecimalZ.
From stdpp Require Import gmap strings list fin_maps.

Local Open Scope string_scope.
Local Open Scope Z_scope.

(** ** Python values: strings, truthiness, exceptions *)

Module Py.

(** [str.isspace] on one ASCII character: TAB, LF, VT, FF, CR, the four
    separators FS, GS, RS, US, and the space. *)
Definition isspace (c : ascii) : bool :=
  let n := nat_of_ascii c in
  ((9 <=? n)%nat && (n <=? 13)%nat) || ((28 <=? n)%nat && (n <=? 32)%nat).

Fixpoint lstrip (s : string) : string :=
  match s with
  | String c r => if isspace c then lstrip r else s
  | EmptyString => EmptyString
  end.

Fixpoint rev_onto (s acc : string) : string :=
  match s with
  | String c r => rev_onto r (String c acc)
  | EmptyString => acc
  end.

Definition reverse (s : string) : string := rev_onto s EmptyString.

Definition rstrip (s : string) : string := reverse (lstrip (reverse s)).

(** [s.strip()] *)
Definition strip (s : string) : string := rstrip (lstrip s).

Definition upper_char (c : ascii) : ascii :=
  let n := nat_of_ascii c in
  if ((97 <=? n)%nat && (n <=? 122)%nat)%bool then ascii_of_nat (n - 32) else c.

Definition lower_char (c : ascii) : ascii :=
  let n := nat_of_ascii c in
  if ((65 <=? n)%nat && (n <=? 90)%nat)%bool then ascii_of_nat (n + 32) else c.

Fixpoint map_chars (f : ascii -> ascii) (s : string) : string :=
  match s with
  | String c r => String (f c) (map_chars f r)
  | EmptyString => EmptyString
  end.

(** [s.upper()] and [s.lower()] *)
Definition upper (s : string) : string := map_chars upper_char s.
Definition lower (s : string) : string := map_chars lower_char s.

(** Truthiness of a [str]: every string but the empty one. *)
Definition truthy (s : string) : bool :=
  match s with EmptyString => false | String _ _ => true end.

(** [a or b] where [a] and [b] are [Optional[str]]: [a] when it is a
    non-empty string, [b] otherwise. *)
Definition or_ (a b : option string) : option string :=
  match a with
  | Some s => if truthy s then a else b
  | None => b
  end.

(** [a or d] where the right operand is a plain string. *)
Definition or_str (a : option string) (d : string) : string :=
  match a with
  | Some s => if truthy s then s else d
  | None => d
  end.

(** [str(n)] for a non-negative count. *)
Definition str_of_nat (n : nat) : string :=
  NilEmpty.string_of_uint (Nat.to_uint n).

(** Exceptions a computation can raise, and the result of a computation
    that may raise. *)
Inductive exn := ValueError | TypeError.

Inductive result (A : Type) :=
| Ok (a : A)
| Raise (e : exn).
Arguments Ok {A} a.
Arguments Raise {A} e.

Definition bind {A B} (m : result A) (k : A -> result B) : result B :=
  match m with
  | Ok a => k a
  | Raise e => Raise e
  end.

(** [try: body  except ValueError: handler] *)
Definition try_except_ValueError {A} (body : result A) (handler : result A)
  : result A :=
  match body with
  | Raise ValueError => handler
  | other => other
  end.

(** A calendar date and a point in time ([datetime.date],
    [datetime.datetime]); dates compare field by field. *)
Record date := Date { year : Z; month : Z; day : Z }.

Record datetime := Datetime { dt_date : date; dt_seconds : Z }.

Definition date_ltb (a b : date) : bool :=
  ((year a <? year b)%Z
   || ((year a =? year b)%Z
       && ((month a <? month b)%Z
           || ((month a =? month b)%Z && (day a <? day b)%Z))))%bool.

End Py.

(** ** The object-relational layer *)

Module Orm.

Section Table.
Context {A : Type}.

(** A query set over a table of [A]: the rows it selects, by primary
    key and content. *)
Definition QuerySet := Z -> A -> bool.

(** [Model.objects.all()] *)
Definition all : QuerySet := fun _ _ => true.

(** [qs.filter(cond)]: conditions accumulate by conjunction. *)
Definition filter (qs cond : QuerySet) : QuerySet :=
  fun pk r => qs pk r && cond pk r.

(** [qs.exclude(cond)] *)
Definition exclude (qs cond : QuerySet) : QuerySet :=
  fun pk r => qs pk r && negb (cond pk r).

(** The rows of the table a query set selects, in the order the table
    lists them. *)
Definition rows (qs : QuerySet) (t : gmap Z A) : list (Z * A) :=
  List.filter (fun kv => qs kv.1 kv.2) (map_to_list t).

(** [qs.count()] *)
Definition count (qs : QuerySet) (t : gmap Z A) : nat :=
  length (rows qs t).

(** [qs.update(field=value, ...)]: one UPDATE statement; the selected
    rows get the new field values, every other row stays, no row is
    added or removed. The number of matched rows is returned. *)
Definition update (qs : QuerySet) (set : A -> A) (t : gmap Z A)
  : nat * gmap Z A :=
  (count qs t,
   map_imap (fun pk r => Some (if qs pk r then set r else r)) t).
End Table.

Arguments QuerySet : clear implicits.

End Orm.

(** ** The models the admin works on ([catalog.models]) *)

Module Models.
Import Py.

(** [BorrowRequest.Status] *)
Inductive RequestStatus := PENDING | APPROVED | REJECTED | CANCELLED | EXPIRED.

(** [Loan.Status] *)
Inductive LoanStatus := BORROWED | RETURNED | OVERDUE.

(** [BookItem.status] *)
Inductive ItemStatus := AVAILABLE | RESERVED | LOANED | LOST | DAMAGED.

#[global] Instance RequestStatus_eq_dec : EqDecision RequestStatus.
Proof. solve_decision. Defined.
#[global] Instance LoanStatus_eq_dec : EqDecision LoanStatus.
Proof. solve_decision. Defined.
#[global] Instance ItemStatus_eq_dec : EqDecision ItemStatus.
Proof. solve_decision. Defined.

Record User := {
  username : string;
  is_active : bool;
  is_staff : bool
}.

Record BorrowRequest := {
  br_user : Z;
  requested_from : date;
  requested_to : date;
  br_status : RequestStatus;
  br_admin : option Z;
  decision_at : option datetime;
  rejection_reason : string
}.

Record BorrowRequestItem := {
  bri_request : Z;
  bri_book : Z;
  quantity : Z
}.

Record BookItem := {
  bi_book : Z;
  barcode : string;
  bi_status : ItemStatus;
  location_code : option string;
  bi_created_at : option datetime
}.

Record Loan := {
  ln_request : Z;
  ln_request_item : Z;
  ln_book_item : Z;
  approved_from : date;
  due_date : date;
  returned_at : option date;
  ln_status : LoanStatus
}.

(** The tables of the database. *)
Record Db := {
  users : gmap Z User;
  borrow_requests : gmap Z BorrowRequest;
  borrow_request_items : gmap Z BorrowRequestItem;
  book_items : gmap Z BookItem;
  loans : gmap Z Loan
}.

Definition with_users (t : gmap Z User) (d : Db) : Db :=
  {| users := t; borrow_requests := borrow_requests d;
     borrow_request_items := borrow_request_items d;
     book_items := book_items d; loans := loans d |}.

Definition with_borrow_requests (t : gmap Z BorrowRequest) (d : Db) : Db :=
  {| users := users d; borrow_requests := t;
     borrow_request_items := borrow_request_items d;
     book_items := book_items d; loans := loans d |}.

Definition with_loans (t : gmap Z Loan) (d : Db) : Db :=
  {| users := users d; borrow_requests := borrow_requests d;
     borrow_request_items := borrow_request_items d;
     book_items := book_items d; loans := t |}.

End Models.

(** ** The admin actions ([catalog/admin.py]) *)

Module Admin.
Import Py Models.

(** [django.contrib.messages]: what an action reports to the admin. *)
Inductive Level := SUCCESS | INFO | ERROR.

Record Message := { level : Level; text : string }.

(** What an action reads from the HTTP request: the logged-in admin, the
    submitted action form, and the reading of [timezone.now()]. *)
Record HttpRequest := {
  user : Z;
  POST : gmap string string;
  now : datetime
}.

(** What an action can change: the database and the messages queued on
    the request. *)
Record World := { db : Db; messages : list Message }.

(** Actions are state transformers over [World]. *)
Definition Action (A : Type) : Type := World -> A * World.

Definition ret {A} (a : A) : Action A := fun w => (a, w).

Definition bind {A B} (m : Action A) (k : A -> Action B) : Action B :=
  fun w => let (a, w') := m w in k a w'.

Notation "'let*' x ':=' m 'in' k" := (bind m (fun x => k))
  (at level 10, x name, m at level 100, k at level 200).

(** The final state of an action. *)
Definition exec {A} (m : Action A) (w : World) : World := snd (m w).

Definition add_message (l : Level) (msg : string) : Action unit :=
  fun w => (tt, {| db := db w; messages := (messages w ++ [{| level := l; text := msg |}])%list |}).

Definition messages_success := add_message SUCCESS.
Definition messages_info := add_message INFO.
Definition messages_error := add_message ERROR.

(** [qs.count()] and [qs.update(...)] on each table. *)
Definition count_users (qs : Orm.QuerySet User) : Action nat :=
  fun w => (Orm.count qs (users (db w)), w).

Definition update_users (qs : Orm.QuerySet User) (set : User -> User)
  : Action nat :=
  fun w => let (n, t) := Orm.update qs set (users (db w)) in
           (n, {| db := with_users t (db w); messages := messages w |}).

Definition update_borrow_requests (qs : Orm.QuerySet BorrowRequest)
  (set : BorrowRequest -> BorrowRequest) : Action nat :=
  fun w => let (n, t) := Orm.update qs set (borrow_requests (db w)) in
           (n, {| db := with_borrow_requests t (db w); messages := messages w |}).

Definition update_loans (qs : Orm.QuerySet Loan) (set : Loan -> Loan)
  : Action nat :=
  fun w => let (n, t) := Orm.update qs set (loans (db w)) in
           (n, {| db := with_loans t (db w); messages := messages w |}).

(** *** User management *)

Definition set_is_active (b : bool) (u : User) : User :=
  {| username := username u; is_active := b; is_staff := is_staff u |}.

Definition activate_users (request : HttpRequest) (queryset : Orm.QuerySet User)
  : Action unit :=
  let* updated := update_users queryset (set_is_active true) in
  messages_success ("Activated " ++ str_of_nat updated ++ " user(s)").

Definition deactivate_users (request : HttpRequest) (queryset : Orm.QuerySet User)
  : Action unit :=
  (* Prevent deactivating self *)
  let qs := Orm.exclude queryset (fun pk _ => pk =? user request) in
  let* n_all := count_users queryset in
  let* n_qs := count_users qs in
  let skipped := Z.of_nat n_all - Z.of_nat n_qs in
  let* updated := update_users qs (set_is_active false) in
  let msg := "Deactivated " ++ str_of_nat updated ++ " user(s)" in
  let msg := if skipped =? 0 then msg
             else msg ++ " (skipped " ++ str_of_nat (Z.to_nat skipped)
                      ++ " current user)" in
  messages_success msg.

(** *** Borrow requests *)

Definition is_pending : Orm.QuerySet BorrowRequest :=
  fun _ r => bool_decide (br_status r = PENDING).

(** [requested_to__lt=day] *)
Definition requested_to_lt (d : date) : Orm.QuerySet BorrowRequest :=
  fun _ r => date_ltb (requested_to r) d.

(** [OverdueRequestFilter.queryset], on the value of the [overdue]
    parameter of the change list. *)
Definition OverdueRequestFilter_queryset (value : option string)
  (request : HttpRequest) (queryset : Orm.QuerySet BorrowRequest)
  : Orm.QuerySet BorrowRequest :=
  let today := dt_date (now request) in
  if bool_decide (value = Some "yes") then
    Orm.filter queryset (Orm.filter is_pending (requested_to_lt today))
  else if bool_decide (value = Some "no") then
    Orm.exclude queryset (Orm.filter is_pending (requested_to_lt today))
  else queryset.

(** The field assignment of the approval and of the rejection. *)
Definition decide_request (s : RequestStatus) (at_ : datetime) (by_ : Z)
  (reason : string) (r : BorrowRequest) : BorrowRequest :=
  {| br_user := br_user r;
     requested_from := requested_from r;
     requested_to := requested_to r;
     br_status := s;
     br_admin := Some by_;
     decision_at := Some at_;
     rejection_reason := reason |}.

Definition set_br_status (s : RequestStatus) (r : BorrowRequest) : BorrowRequest :=
  {| br_user := br_user r;
     requested_from := requested_from r;
     requested_to := requested_to r;
     br_status := s;
     br_admin := br_admin r;
     decision_at := decision_at r;
     rejection_reason := rejection_reason r |}.

Definition approve_selected (request : HttpRequest)
  (queryset : Orm.QuerySet BorrowRequest) : Action unit :=
  let pending := Orm.filter queryset is_pending in
  let* updated := update_borrow_requests pending
               (decide_request APPROVED (now request) (user request) "") in
  messages_success ("Approved " ++ str_of_nat updated ++ " request(s)").

Definition reject_selected (request : HttpRequest)
  (queryset : Orm.QuerySet BorrowRequest) : Action unit :=
  let reason := strip (default "" (POST request !! "rejection_reason")) in
  if negb (truthy reason) then
    messages_error
      "Please provide a rejection reason in the action bar before rejecting."
  else
    let pending := Orm.filter queryset is_pending in
    let* updated := update_borrow_requests pending
                 (decide_request REJECTED (now request) (user request) reason) in
    messages_success ("Rejected " ++ str_of_nat updated ++ " request(s)").

Definition mark_selected_expired (request : HttpRequest)
  (queryset : Orm.QuerySet BorrowRequest) : Action unit :=
  let today := dt_date (now request) in
  let qs := Orm.filter queryset (Orm.filter is_pending (requested_to_lt today)) in
  let* updated := update_borrow_requests qs (set_br_status EXPIRED) in
  if negb (updated =? 0)%nat then
    messages_success ("Marked " ++ str_of_nat updated ++ " request(s) as expired")
  else
    messages_info "No pending requests past their requested_to date".

(** *** Loans *)

Definition set_returned (d : date) (l : Loan) : Loan :=
  {| ln_request := ln_request l;
     ln_request_item := ln_request_item l;
     ln_book_item := ln_book_item l;
     approved_from := approved_from l;
     due_date := due_date l;
     returned_at := Some d;
     ln_status := RETURNED |}.

Definition set_ln_status (s : LoanStatus) (l : Loan) : Loan :=
  {| ln_request := ln_request l;
     ln_request_item := ln_request_item l;
     ln_book_item := ln_book_item l;
     approved_from := approved_from l;
     due_date := due_date l;
     returned_at := returned_at l;
     ln_status := s |}.

Definition mark_as_returned (request : HttpRequest)
  (queryset : Orm.QuerySet Loan) : Action unit :=
  let* updated := update_loans queryset (set_returned (dt_date (now request))) in
  messages_success ("Marked " ++ str_of_nat updated ++ " loan(s) as returned").

Definition mark_overdue_due (request : HttpRequest)
  (queryset : Orm.QuerySet Loan) : Action unit :=
  let today := dt_date (now request) in
  let qs := Orm.filter queryset
              (fun _ l => date_ltb (due_date l) today
                          && bool_decide (ln_status l = BORROWED)) in
  let* updated := update_loans qs (set_ln_status OVERDUE) in
  if negb (updated =? 0)%nat then
    messages_success ("Marked " ++ str_of_nat updated ++ " loan(s) as overdue")
  else
    messages_info "No borrowed loans past due date".

End Admin.

(** ** Library functions the export helpers call *)

Module PyLib.
Import Py.

Definition digit_value (c : ascii) : option Z :=
  let n := nat_of_ascii c in
  if ((48 <=? n)%nat && (n <=? 57)%nat)%bool
  then Some (Z.of_nat (n - 48)) else None.

(** Where the scan of a decimal literal stands: underscores are allowed
    between two digits only. *)
Inductive DigitState := AtStart | AfterDigit | AfterUnderscore.

Fixpoint digits_value (s : string) (st : DigitState) (acc : Z) : option Z :=
  match s with
  | EmptyString => match st with AfterDigit => Some acc | _ => None end
  | String c r =>
      match digit_value c with
      | Some d => digits_value r AfterDigit (10 * acc + d)
      | None =>
          match st with
          | AfterDigit =>
              if Ascii.eqb c "_" then digits_value r AfterUnderscore acc
              else None
          | _ => None
          end
      end
  end.

(** [int(s)] on a string: surrounding whitespace, one optional sign, then
    decimal digits; anything else raises [ValueError]. *)
Definition int (s : string) : result Z :=
  let t := strip s in
  let '(negative, body) :=
    match t with
    | String "-"%char r => (true, r)
    | String "+"%char r => (false, r)
    | _ => (false, t)
    end in
  match digits_value body AtStart 0 with
  | Some n => Ok (if negative : bool then - n else n)
  | None => Raise ValueError
  end.

Definition is_leap (y : Z) : bool :=
  ((y mod 4 =? 0) && (negb (y mod 100 =? 0) || (y mod 400 =? 0)))%bool.

Definition days_in_month (y m : Z) : Z :=
  if m =? 2 then (if is_leap y then 29 else 28)
  else if ((m =? 4) || (m =? 6) || (m =? 9) || (m =? 11))%bool then 30
  else 31.

Definition two_digits (a b : ascii) : option Z :=
  match digit_value a, digit_value b with
  | Some x, Some y => Some (10 * x + y)
  | _, _ => None
  end.

Definition parse_iso_date (s : string) : option date :=
  match list_ascii_of_string s with
  | [y1; y2; y3; y4; "-"%char; m1; m2; "-"%char; d1; d2] =>
      match two_digits y1 y2, two_digits y3 y4, two_digits m1 m2, two_digits d1 d2 with
      | Some yh, Some yl, Some m, Some d =>
          let y := 100 * yh + yl in
          if ((1 <=? y) && (1 <=? m) && (m <=? 12)
              && (1 <=? d) && (d <=? days_in_month y m))%bool
          then Some (Date y m d)
          else None
      | _, _, _, _ => None
      end
  | _ => None
  end.

(** [date.fromisoformat(s)] for the format [YYYY-MM-DD]; a string of any
    other shape, or one that names no day of the calendar, raises
    [ValueError]. *)
Definition fromisoformat (s : string) : result date :=
  match parse_iso_date s with
  | Some d => Ok d
  | None => Raise ValueError
  end.

(** [str(n)] on an integer. *)
Definition str_of_Z (n : Z) : string := NilEmpty.string_of_int (Z.to_int n).

(** [s.zfill(width)] on the digits of a non-negative number. *)
Definition zfill (width : nat) (s : string) : string :=
  string_of_list_ascii (repeat "0"%char (width - String.length s)) ++ s.

(** [d.isoformat()] *)
Definition isoformat (d : date) : string :=
  zfill 4 (str_of_Z (year d)) ++ "-" ++ zfill 2 (str_of_Z (month d))
    ++ "-" ++ zfill 2 (str_of_Z (day d)).

Definition is_alpha (c : ascii) : bool :=
  let n := nat_of_ascii c in
  (((65 <=? n)%nat && (n <=? 90)%nat) || ((97 <=? n)%nat && (n <=? 122)%nat))%bool.

(** [s.title()]: a letter that follows a letter is lowered, a letter that
    does not is raised. *)
Fixpoint title_case_from (after_letter : bool) (s : string) : string :=
  match s with
  | EmptyString => EmptyString
  | String c r =>
      if is_alpha c
      then String (if after_letter then lower_char c else upper_char c)
                  (title_case_from true r)
      else String c (title_case_from false r)
  end.

Definition title_case (s : string) : string := title_case_from false s.

(** [s.replace(old, new)] for one-character [old] and [new]. *)
Definition replace_char (old new : ascii) (s : string) : string :=
  map_chars (fun c => if Ascii.eqb c old then new else c) s.

(** [sep.join(parts)] *)
Fixpoint join (sep : string) (parts : list string) : string :=
  match parts with
  | [] => ""
  | [p] => p
  | p :: rest => p ++ sep ++ join sep rest
  end.

(** [s.split(",")] *)
Fixpoint split_commas_from (current : string) (s : string) : list string :=
  match s with
  | EmptyString => [reverse current]
  | String c r =>
      if Ascii.eqb c ","
      then reverse current :: split_commas_from "" r
      else split_commas_from (String c current) r
  end.

Definition split_commas (s : string) : list string := split_commas_from "" s.

End PyLib.

(** ** The export helpers ([catalog/utils/exports.py]) *)

Module Exports.
Import Py PyLib Models.

Notation "'let*' x ':=' m 'in' k" := (Py.bind m (fun x => k))
  (at level 10, x name, m at level 100, k at level 200).

Definition _parse_int (val : option string) : result (option Z) :=
  try_except_ValueError
    (match val with
     | Some v =>
         if negb (String.eqb v "")
         then let* n := int v in Ok (Some n)
         else Ok None
     | None => Ok None
     end)
    (Ok None).

Definition _parse_date (val : option string) : result (option date) :=
  try_except_ValueError
    (match val with
     | Some v =>
         if truthy v
         then let* d := fromisoformat v in Ok (Some d)
         else Ok None
     | None => Ok None
     end)
    (Ok None).

(** The conditions [build_book_queryset] can put on the books. *)
Inductive Lookup :=
| text_icontains (q : string)
    (* Q(title__icontains=q) | Q(description__icontains=q) | Q(isbn13__icontains=q) *)
| categories__id (n : Z)
| authors__id (n : Z)
| publisher__id (n : Z)
| publish_year__gte (n : Z)
| publish_year__lte (n : Z)
| language_code__iexact (s : string)
| items__status (s : string)
| created_at__date__gte (d : date)
| created_at__date__lte (d : date).

(** A [QuerySet[Book]] before it is run: what it prefetches and annotates,
    the accumulated filters in the order they were applied, and the
    [distinct] and [order_by] clauses. *)
Record BookQuery := {
  annotated : bool;
  prefetch_item_loans : bool;
  filters : list Lookup;
  is_distinct : bool;
  ordering : list string
}.

(** [Book.objects.all()] *)
Definition Book_objects_all : BookQuery :=
  {| annotated := false; prefetch_item_loans := false; filters := [];
     is_distinct := false; ordering := [] |}.

Definition qs_filter (f : Lookup) (qs : BookQuery) : BookQuery :=
  {| annotated := annotated qs;
     prefetch_item_loans := prefetch_item_loans qs;
     filters := (filters qs ++ [f])%list;
     is_distinct := is_distinct qs;
     ordering := ordering qs |}.

Definition qs_distinct (qs : BookQuery) : BookQuery :=
  {| annotated := annotated qs;
     prefetch_item_loans := prefetch_item_loans qs;
     filters := filters qs;
     is_distinct := true;
     ordering := ordering qs |}.

Definition qs_order_by (key : string) (qs : BookQuery) : BookQuery :=
  {| annotated := annotated qs;
     prefetch_item_loans := prefetch_item_loans qs;
     filters := filters qs;
     is_distinct := is_distinct qs;
     ordering := [key] |}.

Definition annotate_book_metrics (qs : BookQuery) (include_items : bool)
  : BookQuery :=
  {| annotated := true;
     prefetch_item_loans := if include_items then true else prefetch_item_loans qs;
     filters := filters qs;
     is_distinct := is_distinct qs;
     ordering := ordering qs |}.

Definition item_statuses : list string :=
  ["AVAILABLE"; "RESERVED"; "LOANED"; "LOST"; "DAMAGED"].

Definition allowed_sorts : list string :=
  ["title"; "-title"; "created_at"; "-created_at"; "publish_year"; "-publish_year"].

(** [x in {...}] for a set of string literals. *)
Definition str_in (x : string) (l : list string) : bool :=
  existsb (String.eqb x) l.

(** [params] is the GET-like mapping of the request: [params.get(k)] is
    [params !! k]. *)
Definition build_book_queryset (params : gmap string string)
  (include_items : bool) : result BookQuery :=
  let qs := annotate_book_metrics Book_objects_all include_items in
  let q := strip (or_str (params !! "q") "") in
  let qs := if truthy q then qs_filter (text_icontains q) qs else qs in
  let* category_id :=
    _parse_int (or_ (or_ (params !! "category_id")
                         (params !! "categories__id__exact"))
                    (params !! "category__id__exact")) in
  let qs := match category_id with
            | Some n => qs_filter (categories__id n) qs
            | None => qs
            end in
  let* author_id :=
    _parse_int (or_ (or_ (params !! "author_id")
                         (params !! "authors__id__exact"))
                    (params !! "author__id__exact")) in
  let qs := match author_id with
            | Some n => qs_filter (authors__id n) qs
            | None => qs
            end in
  let* publisher_id :=
    _parse_int (or_ (params !! "publisher_id")
                    (params !! "publisher__id__exact")) in
  let qs := match publisher_id with
            | Some n => qs_filter (publisher__id n) qs
            | None => qs
            end in
  let* y_from :=
    _parse_int (or_ (or_ (params !! "publish_year_from")
                         (params !! "publish_year__gte"))
                    (params !! "publish_year")) in
  let qs := match y_from with
            | Some n => qs_filter (publish_year__gte n) qs
            | None => qs
            end in
  let* y_to :=
    _parse_int (or_ (or_ (params !! "publish_year_to")
                         (params !! "publish_year__lte"))
                    (params !! "publish_year")) in
  let qs := match y_to with
            | Some n => qs_filter (publish_year__lte n) qs
            | None => qs
            end in
  let lang :=
    strip (or_str (or_ (or_ (params !! "language")
                            (params !! "language_code"))
                       (params !! "language_code__exact")) "") in
  let qs := if truthy lang then qs_filter (language_code__iexact lang) qs
            else qs in
  let item_status :=
    upper (strip (or_str (or_ (or_ (params !! "item_status")
                                   (params !! "items__status"))
                              (params !! "items__status__exact")) "")) in
  let qs := if str_in item_status item_statuses
            then qs_filter (items__status item_status) qs
            else qs in
  let* c_from :=
    _parse_date
      (Some (strip (or_str (or_ (params !! "created_from")
                                (params !! "created_at__date__gte")) ""))) in
  let qs := match c_from with
            | Some d => qs_filter (created_at__date__gte d) qs
            | None => qs
            end in
  let* c_to :=
    _parse_date
      (Some (strip (or_str (or_ (params !! "created_to")
                                (params !! "created_at__date__lte")) ""))) in
  let qs := match c_to with
            | Some d => qs_filter (created_at__date__lte d) qs
            | None => qs
            end in
  let qs := qs_distinct qs in
  let sort := strip (or_str (params !! "sort") "title") in
  let sort := if negb (str_in sort allowed_sorts) then "title" else sort in
  Ok (qs_order_by sort qs).

Definition DEFAULT_BOOK_COLUMNS : list string :=
  ["id"; "title"; "authors"; "categories"; "isbn13"; "publisher";
   "publisher_founded_year"; "publish_year"; "language"; "cover_url";
   "total_items"; "available_items"; "reserved_items"; "loaned_items";
   "lost_items"; "damaged_items"; "total_loans"; "last_loan_date";
   "avg_rating"; "total_favorites"; "created_at"].

(** *** Rendering the workbook *)

Record Publisher := { pub_name : string; founded_year : option Z }.

(** A physical copy as the export reads it: the row of the copy and the
    prefetched [item.loans.all()]. *)
Record ItemRow := { item : BookItem; item_loans : list Loan }.

Section Render.

(** The float type of [avg_rating] with [round(x, 2)] and [str(x)], the
    label tables of the status choices, and the formatting of a time stamp
    in the local time zone
    ([timezone.localtime(t).strftime("%Y-%m-%d %H:%M:%S")]). *)
Context {float : Type}.
Variable round2 : float -> float.
Variable str_of_float : float -> string.
Variable item_status_display : ItemStatus -> string.
Variable loan_status_display : LoanStatus -> string.
Variable localtime_strftime : datetime -> string.

(** A book as the annotated query set yields it. [metrics] holds the
    count annotations under their names; a name that is not annotated is
    not in the map. *)
Record Book := {
  id : Z;
  title : string;
  authors : list string;
  categories : list string;
  isbn13 : option string;
  publisher : option Publisher;
  publish_year : option Z;
  language_code : option string;
  cover_url : option string;
  metrics : gmap string Z;
  avg_rating : option float;
  last_loan_date : option date;
  created_at : option datetime;
  items : list ItemRow
}.

(** The value of a spreadsheet cell. *)
Inductive Cell :=
| CInt (n : Z)
| CStr (s : string)
| CFloat (x : float)
| CNone.

Definition metric_keys : list string :=
  ["total_items"; "available_items"; "reserved_items"; "loaned_items";
   "lost_items"; "damaged_items"; "total_favorites"; "authors_count";
   "categories_count"; "total_loans"].

Definition _book_cell_value (book : Book) (key : string) : Cell :=
  if String.eqb key "id" then CInt (id book)
  else if String.eqb key "title" then CStr (title book)
  else if String.eqb key "authors" then CStr (join ", " (authors book))
  else if String.eqb key "categories" then CStr (join ", " (categories book))
  else if String.eqb key "isbn13" then CStr (or_str (isbn13 book) "")
  else if String.eqb key "publisher" then
    match publisher book with
    | Some p => CStr (pub_name p)
    | None => CStr ""
    end
  else if String.eqb key "publisher_founded_year" then
    match publisher book with
    | Some p => match founded_year p with Some y => CInt y | None => CNone end
    | None => CStr ""
    end
  else if String.eqb key "publish_year" then
    match publish_year book with
    | Some y => if y =? 0 then CStr "" else CInt y
    | None => CStr ""
    end
  else if String.eqb key "language" then CStr (or_str (language_code book) "")
  else if String.eqb key "cover_url" then CStr (or_str (cover_url book) "")
  else if str_in key metric_keys then CInt (default 0 (metrics book !! key))
  else if String.eqb key "avg_rating" then
    match avg_rating book with
    | Some val => CFloat (round2 val)
    | None => CStr ""
    end
  else if String.eqb key "last_loan_date" then
    match last_loan_date book with
    | Some val => CStr (isoformat val)
    | None => CStr ""
    end
  else if String.eqb key "created_at" then
    match created_at book with
    | Some t => CStr (localtime_strftime t)
    | None => CStr ""
    end
  else (* Unknown key *) CStr "".

Record Worksheet := {
  sheet_title : string;
  sheet_rows : list (list Cell);
  column_widths : list Z
}.

(** A workbook is the list of its sheets, the active one first. *)
Definition Workbook := list Worksheet.

(** [len(str(val))], for a cell that holds a value. *)
Definition cell_len (c : Cell) : option Z :=
  match c with
  | CInt n => Some (Z.of_nat (String.length (str_of_Z n)))
  | CStr s => Some (Z.of_nat (String.length s))
  | CFloat x => Some (Z.of_nat (String.length (str_of_float x)))
  | CNone => None
  end.

(** The auto-sizing loop over one column: the longest text among the
    header and the cells below it, plus two, capped at sixty. *)
Definition column_width (header : string) (cells : list Cell) : Z :=
  let max_len :=
    fold_left
      (fun max_len c =>
         match cell_len c with
         | Some length => if max_len <? length then length else max_len
         | None => max_len
         end)
      cells (Z.of_nat (String.length header)) in
  Z.min (max_len + 2) 60.

Definition auto_size (headers : list string) (data : list (list Cell))
  : list Z :=
  imap (fun i h => column_width h (map (fun row => nth i row CNone) data))
       headers.

Definition item_headers : list string :=
  ["Book ID"; "Title"; "Barcode"; "Status"; "Location"; "Created At";
   "Currently Loaned"; "Due Date"; "Loan Status"].

(** Determine current loan, if any:
    [next((ln for ln in item.loans.all() if ln.status == "BORROWED"), None)] *)
Definition current_loan (loans : list Loan) : option Loan :=
  List.find (fun ln => bool_decide (ln_status ln = BORROWED)) loans.

Definition item_row (book : Book) (it : ItemRow) : list Cell :=
  let current := current_loan (item_loans it) in
  [CInt (id book);
   CStr (title book);
   CStr (barcode (item it));
   CStr (item_status_display (bi_status (item it)));
   CStr (or_str (location_code (item it)) "");
   CStr (match bi_created_at (item it) with
         | Some t => localtime_strftime t
         | None => ""
         end);
   CStr (match current with Some _ => "Yes" | None => "No" end);
   CStr (match current with Some ln => isoformat (due_date ln) | None => "" end);
   CStr (match current with
         | Some ln => loan_status_display (ln_status ln)
         | None => ""
         end)].

(** [qs] is the list of books the query set yields when iterated. *)
Definition render_books_workbook (qs : list Book)
  (columns : option (list string)) (include_items : bool) : Workbook :=
  let cols := match columns with
              | Some (c :: cs) => c :: cs
              | _ => DEFAULT_BOOK_COLUMNS
              end in
  let headers := map (fun col => title_case (replace_char "_" " " col)) cols in
  let data := map (fun book => map (_book_cell_value book) cols) qs in
  let ws := {| sheet_title := "Books";
               sheet_rows := map CStr headers :: data;
               column_widths := auto_size headers data |} in
  if include_items then
    let item_data :=
      flat_map (fun book => map (item_row book) (items book)) qs in
    let ws2 := {| sheet_title := "Items";
                  sheet_rows := map CStr item_headers :: item_data;
                  column_widths := auto_size item_headers item_data |} in
    [ws; ws2]
  else [ws].

(** [export_books_excel] up to the workbook it serialises; [run] is the
    evaluation of a book query against the database. *)
Definition export_books_excel (run : BookQuery -> list Book)
  (GET : gmap string string) : result Workbook :=
  let include_items :=
    str_in (lower (or_str (GET !! "include_items") "")) ["1"; "true"; "yes"] in
  let columns_param := strip (or_str (GET !! "columns") "") in
  let columns :=
    if truthy columns_param
    then Some (List.filter truthy (map strip (split_commas columns_param)))
    else None in
  let* qs := build_book_queryset GET include_items in
  Ok (render_books_workbook (run qs) columns include_items).

End Render.

End Exports.

(** ** Sequences of admin operations *)

Module Lifecycle.
Import Py Models Admin.

(** The three bulk actions of the borrow-request change list. *)
Inductive BulkAction := ApproveSelected | RejectSelected | MarkSelectedExpired.

Definition run_bulk (a : BulkAction) (request : HttpRequest)
  (queryset : Orm.QuerySet BorrowRequest) : Action unit :=
  match a with
  | ApproveSelected => approve_selected request queryset
  | RejectSelected => reject_selected request queryset
  | MarkSelectedExpired => mark_selected_expired request queryset
  end.

(** The loans the table holds for one physical copy. *)
Definition loans_of_item (item_pk : Z) : Orm.QuerySet Loan :=
  fun _ ln => ln_book_item ln =? item_pk.

Definition is_borrowed (ln : Loan) : bool :=
  bool_decide (ln_status ln = BORROWED).

Definition has_borrowed_loan (item_pk : Z) (t : gmap Z Loan) : bool :=
  negb (Orm.count
          (Orm.filter (loans_of_item item_pk)
                      (fun _ ln => bool_decide (ln_status ln = BORROWED))) t
        =? 0)%nat.

(** Modelled from the spec: the creation of a [Loan] row. Neither the
    [Loan] model nor any code that creates loans is among the sources; the
    specification says that a loan "links a request item to a specific
    BookItem, status ∈ {BORROWED, RETURNED, OVERDUE}, due date" and that "a
    BookItem can have at most one active (BORROWED) Loan at a time". A loan
    is stored under a key that is not in use; it starts as BORROWED and is
    refused (the world is left as it is) when the copy already has a
    BORROWED loan. *)
Definition create_loan (pk request_pk request_item_pk item_pk : Z)
  (from due : date) : Action bool :=
  fun w =>
    let t := loans (db w) in
    match t !! pk with
    | Some _ => (false, w)
    | None =>
        if has_borrowed_loan item_pk t then (false, w)
        else
          let ln := {| ln_request := request_pk;
                       ln_request_item := request_item_pk;
                       ln_book_item := item_pk;
                       approved_from := from;
                       due_date := due;
                       returned_at := None;
                       ln_status := BORROWED |} in
          (true, {| db := with_loans (<[pk := ln]> t) (db w);
                    messages := messages w |})
    end.

(** One operation on the world: an admin action of [catalog/admin.py], or
    the creation of a loan. *)
Inductive Operation :=
| OpActivateUsers (request : HttpRequest) (queryset : Orm.QuerySet User)
| OpDeactivateUsers (request : HttpRequest) (queryset : Orm.QuerySet User)
| OpBulk (a : BulkAction) (request : HttpRequest)
    (queryset : Orm.QuerySet BorrowRequest)
| OpMarkAsReturned (request : HttpRequest) (queryset : Orm.QuerySet Loan)
| OpMarkOverdueDue (request : HttpRequest) (queryset : Orm.QuerySet Loan)
| OpCreateLoan (pk request_pk request_item_pk item_pk : Z) (from due : date).

Definition run (op : Operation) (w : World) : World :=
  match op with
  | OpActivateUsers request queryset => exec (activate_users request queryset) w
  | OpDeactivateUsers request queryset => exec (deactivate_users request queryset) w
  | OpBulk a request queryset => exec (run_bulk a request queryset) w
  | OpMarkAsReturned request queryset => exec (mark_as_returned request queryset) w
  | OpMarkOverdueDue request queryset => exec (mark_overdue_due request queryset) w
  | OpCreateLoan pk rq ri it from due => exec (create_loan pk rq ri it from due) w
  end.

(** The worlds the operations reach from one in which no loan exists yet. *)
Inductive reachable : World -> Prop :=
| reachable_init (w : World) : loans (db w) = ∅ -> reachable w
| reachable_step (op : Operation) (w : World) :
    reachable w -> reachable (run op w).

(** At most one BORROWED loan per physical copy. *)
Definition one_borrowed_loan_per_item (t : gmap Z Loan) : Prop :=
  forall pk1 pk2 ln1 ln2,
    t !! pk1 = Some ln1 -> t !! pk2 = Some ln2 ->
    ln_status ln1 = BORROWED -> ln_status ln2 = BORROWED ->
    ln_book_item ln1 = ln_book_item ln2 ->
    pk1 = pk2.

(** What the specification expects after an approval: every item of the
    request has a loan on a copy that exists. *)
Definition loans_spawned_for (request_pk : Z) (d : Db) : Prop :=
  forall ri_pk ri,
    borrow_request_items d !! ri_pk = Some ri ->
    bri_request ri = request_pk ->
    exists loan_pk ln,
      loans d !! loan_pk = Some ln
      /\ ln_request ln = request_pk
      /\ ln_request_item ln = ri_pk
      /\ is_Some (book_items d !! ln_book_item ln).

End Lifecycle.

(** ** The parameters of the export, by the filter they feed *)

Module Params.
Import Py PyLib Exports.

Section Resolved.
Variable params : gmap string string.

(** The value [build_book_queryset] reads for each filter: the first
    non-empty one among the parameter and its admin change-list aliases. *)
Definition q_value : string := strip (or_str (params !! "q") "").

Definition category_value : option string :=
  or_ (or_ (params !! "category_id") (params !! "categories__id__exact"))
      (params !! "category__id__exact").

Definition author_value : option string :=
  or_ (or_ (params !! "author_id") (params !! "authors__id__exact"))
      (params !! "author__id__exact").

Definition publisher_value : option string :=
  or_ (params !! "publisher_id") (params !! "publisher__id__exact").

Definition year_from_value : option string :=
  or_ (or_ (params !! "publish_year_from") (params !! "publish_year__gte"))
      (params !! "publish_year").

Definition year_to_value : option string :=
  or_ (or_ (params !! "publish_year_to") (params !! "publish_year__lte"))
      (params !! "publish_year").

Definition language_value : string :=
  strip (or_str (or_ (or_ (params !! "language") (params !! "language_code"))
                     (params !! "language_code__exact")) "").

Definition item_status_supplied : string :=
  or_str (or_ (or_ (params !! "item_status") (params !! "items__status"))
              (params !! "items__status__exact")) "".

Definition created_from_value : string :=
  strip (or_str (or_ (params !! "created_from")
                     (params !! "created_at__date__gte")) "").

Definition created_to_value : string :=
  strip (or_str (or_ (params !! "created_to")
                     (params !! "created_at__date__lte")) "").

Definition sort_value : string := strip (or_str (params !! "sort") "title").

End Resolved.

(** The integer a value stands for, if it is there and well formed. *)
Definition int_value (v : option string) : option Z :=
  match v with
  | Some s => match int s with Ok n => Some n | Raise _ => None end
  | None => None
  end.

(** The date a value stands for, if it is well formed. *)
Definition date_value (s : string) : option date :=
  match fromisoformat s with Ok d => Some d | Raise _ => None end.

Definition when (c : bool) (f : Lookup) : list Lookup :=
  if c then [f] else [].

Definition of_option {A} (mk : A -> Lookup) (o : option A) : list Lookup :=
  match o with Some a => [mk a] | None => [] end.

(** The filters of the query, in the order they are applied. *)
Definition expected_filters (params : gmap string string) : list Lookup :=
  (when (truthy (q_value params)) (text_icontains (q_value params))
   ++ of_option categories__id (int_value (category_value params))
   ++ of_option authors__id (int_value (author_value params))
   ++ of_option publisher__id (int_value (publisher_value params))
   ++ of_option publish_year__gte (int_value (year_from_value params))
   ++ of_option publish_year__lte (int_value (year_to_value params))
   ++ when (truthy (language_value params))
           (language_code__iexact (language_value params))
   ++ when (str_in (upper (strip (item_status_supplied params))) item_statuses)
           (items__status (upper (strip (item_status_supplied params))))
   ++ of_option created_at__date__gte (date_value (created_from_value params))
   ++ of_option created_at__date__lte (date_value (created_to_value params)))%list.

(** The item-status conditions among the filters of a query. *)
Definition item_status_filters (qs : BookQuery) : list string :=
  flat_map (fun f => match f with items__status s => [s] | _ => [] end)
           (filters qs).

End Params.

(** ** Sample data *)

Module Samples.
Import Py Models Admin Lifecycle.

(** The admin with key 1 acts on 1 March 2024 at noon. *)
Definition request0 : HttpRequest :=
  {| user := 1; POST := ∅; now := Datetime (Date 2024 3 1) 43200 |}.

(** The same admin submitting blanks as the rejection reason. *)
Definition request_blank : HttpRequest :=
  {| user := 1; POST := {[ "rejection_reason" := "   " ]};
     now := Datetime (Date 2024 3 1) 43200 |}.

Definition sample_request (to : date) (s : RequestStatus) : BorrowRequest :=
  {| br_user := 2; requested_from := Date 2024 2 1; requested_to := to;
     br_status := s; br_admin := None; decision_at := None;
     rejection_reason := "" |}.

Definition sample_loan (item_pk : Z) (due : date) (s : LoanStatus) : Loan :=
  {| ln_request := 3; ln_request_item := 30; ln_book_item := item_pk;
     approved_from := Date 2024 2 1; due_date := due; returned_at := None;
     ln_status := s |}.

Definition sample_user (name : string) (active : bool) : User :=
  {| username := name; is_active := active; is_staff := true |}.

(** Two users; a pending request past its end date (key 1), one that is
    still running (key 2) and an approved one (key 3); request 1 asks for
    one copy of book 7, of which copy 100 is on the shelf; request 3 got
    copy 101 of book 8 on a loan that is past its due date. *)
Definition world0 : World :=
  {| db :=
       {| users := {[ 1 := sample_user "admin" true; 2 := sample_user "reader" true ]};
          borrow_requests :=
            {[ 1 := sample_request (Date 2024 2 15) PENDING;
               2 := sample_request (Date 2024 3 15) PENDING;
               3 := sample_request (Date 2024 2 15) APPROVED ]};
          borrow_request_items :=
            {[ 10 := {| bri_request := 1; bri_book := 7; quantity := 1 |};
               30 := {| bri_request := 3; bri_book := 8; quantity := 1 |} ]};
          book_items :=
            {[ 100 := {| bi_book := 7; barcode := "BK000701";
                         bi_status := AVAILABLE; location_code := Some "A1-1";
                         bi_created_at := None |};
               101 := {| bi_book := 8; barcode := "BK000801";
                         bi_status := LOANED; location_code := None;
                         bi_created_at := None |} ]};
          loans := {[ 50 := sample_loan 101 (Date 2024 2 20) BORROWED ]} |};
     messages := [] |}.

(** [world0] before any loan was made. *)
Definition world_fresh : World :=
  {| db := with_loans ∅ (db world0); messages := [] |}.

(** For the samples an average rating is a number of hundredths, the
    status labels are the status names, and time stamps are not printed. *)
Definition sample_round2 (x : Z) : Z := x.
Definition sample_str_of_float (x : Z) : string := PyLib.str_of_Z x.

Definition sample_item_status_display (s : ItemStatus) : string :=
  match s with
  | AVAILABLE => "AVAILABLE" | RESERVED => "RESERVED" | LOANED => "LOANED"
  | LOST => "LOST" | DAMAGED => "DAMAGED"
  end.

Definition sample_loan_status_display (s : LoanStatus) : string :=
  match s with
  | BORROWED => "BORROWED" | RETURNED => "RETURNED" | OVERDUE => "OVERDUE"
  end.

Definition sample_localtime_strftime (t : datetime) : string := "".

(** A book with two copies, the second of which is on loan. *)
Definition sample_book : @Exports.Book Z :=
  {| Exports.id := 7;
     Exports.title := "Harry Potter";
     Exports.authors := ["J.K. Rowling"];
     Exports.categories := ["Fiction"];
     Exports.isbn13 := Some "9780747532699";
     Exports.publisher := None;
     Exports.publish_year := Some 0;
     Exports.language_code := Some "en";
     Exports.cover_url := None;
     Exports.metrics := {[ "total_items" := 2 ]};
     Exports.avg_rating := None;
     Exports.last_loan_date := None;
     Exports.created_at := None;
     Exports.items :=
       [ {| Exports.item :=
              {| bi_book := 7; barcode := "BK000701"; bi_status := AVAILABLE;
                 location_code := Some "A1-1"; bi_created_at := None |};
            Exports.item_loans := [sample_loan 100 (Date 2024 2 20) RETURNED] |};
         {| Exports.item :=
              {| bi_book := 7; barcode := "BK000702"; bi_status := LOANED;
                 location_code := None; bi_created_at := None |};
            Exports.item_loans :=
              [sample_loan 102 (Date 2024 1 20) RETURNED;
               sample_loan 102 (Date 2024 3 15) BORROWED] |} ] |}.

End Samples.

(** ** More of the admin: list columns, field sets, dashboard counters *)

Module AdminMore.
Import Py Models Admin.

(** [BorrowRequestAdmin.rejection_reason_short] *)
Definition rejection_reason_short (obj : BorrowRequest) : string :=
  if negb (truthy (rejection_reason obj)) then "-"
  else
    let text := strip (rejection_reason obj) in
    if (50 <? String.length text)%nat
    then substring 0 47 text ++ "..."
    else text.

(** A section of an admin form: its title, if it has one, and its options,
    a dictionary whose values are tuples of strings ([fields], [classes]). *)
Definition Fieldset : Type := option string * gmap string (list string).

(** The loop of [UserAdmin.get_fieldsets] over the sections, appending
    to [cleaned]. *)
Fixpoint clean_fieldsets (fieldsets cleaned : list Fieldset) : list Fieldset :=
  match fieldsets with
  | [] => cleaned
  | (name, opts) :: rest =>
      let fields := default [] (opts !! "fields") in
      (* Remove the read-only 'password' field from display *)
      let fields := List.filter (fun f => negb (String.eqb f "password")) fields in
      match fields with
      | [] => (* Skip empty sections entirely *) clean_fieldsets rest cleaned
      | _ :: _ =>
          let new_opts := <["fields" := fields]> opts in
          clean_fieldsets rest (cleaned ++ [(name, new_opts)])%list
      end
  end.

(** What the loop keeps of one section. *)
Definition clean_one (section : Fieldset) : list Fieldset :=
  let fields :=
    List.filter (fun f => negb (String.eqb f "password"))
                (default [] (section.2 !! "fields")) in
  match fields with
  | [] => []
  | _ :: _ => [(section.1, <["fields" := fields]> section.2)]
  end.

(** [UserAdmin.get_fieldsets], on the field sets of the parent class;
    [obj] is the user being changed, [None] on the add form. *)
Definition get_fieldsets {A} (fieldsets : list Fieldset) (obj : option A)
  : list Fieldset :=
  match obj with
  | None => fieldsets
  | Some _ => clean_fieldsets fieldsets []
  end.

(** The counters of [admin_stats_api]; the Book table is not part of the
    modelled database, so its row count is passed in. *)
Record StatsData := {
  total_books : nat;
  total_users : nat;
  requests_pending : nat;
  loans_overdue : nat
}.

Definition admin_stats_api (book_count : nat) (d : Db) : StatsData :=
  {| total_books := book_count;
     total_users := Orm.count (Orm.filter Orm.all (fun _ u => is_active u)) (users d);
     requests_pending :=
       Orm.count (Orm.filter Orm.all
                    (fun _ r => bool_decide (br_status r = PENDING)))
                 (borrow_requests d);
     loans_overdue :=
       Orm.count (Orm.filter Orm.all
                    (fun _ l => bool_decide (ln_status l = OVERDUE)))
                 (loans d) |}.

(** Runs a sequence of operations, the first one first. *)
Definition run_all (ops : list Lifecycle.Operation) (w : World) : World :=
  fold_left (fun w op => Lifecycle.run op w) ops w.

End AdminMore.

(** ** Decimal numerals *)

Module Numerals.
Import Py.



(** The dates [datetime.date] can hold: a day of the calendar in the
    years 1 to 9999. *)
Definition valid_date (d : date) : bool :=
  ((1 <=? year d) && (year d <=? 9999)
   && (1 <=? month d) && (month d <=? 12)
   && (1 <=? day d) && (day d <=? PyLib.days_in_month (year d) (month d)))%bool.

(** Whether [n], written with two digits, is read back from them. *)
Definition reads_back2 (n : Z) : bool :=
  match list_ascii_of_string (PyLib.zfill 2 (PyLib.str_of_Z n)) with
  | [a; b] => bool_decide (PyLib.two_digits a b = Some n)
  | _ => false
  end.

(** Whether [n], written with four digits, is read back from its two
    pairs of digits. *)
Definition reads_back4 (n : Z) : bool :=
  match list_ascii_of_string (PyLib.zfill 4 (PyLib.str_of_Z n)) with
  | [a; b; c; e] =>
      bool_decide (PyLib.two_digits a b = Some (n / 100))
      && bool_decide (PyLib.two_digits c e = Some (n mod 100))
  | _ => false
  end.

End Numerals.

(** ** The parameters [build_book_queryset] reads *)

Module KnownParams.

(** Every key the function looks up in [params]. *)
Definition known_params : list string :=
  ["q";
   "category_id"; "categories__id__exact"; "category__id__exact";
   "author_id"; "authors__id__exact"; "author__id__exact";
   "publisher_id"; "publisher__id__exact";
   "publish_year_from"; "publish_year__gte"; "publish_year";
   "publish_year_to"; "publish_year__lte";
   "language"; "language_code"; "language_code__exact";
   "item_status"; "items__status"; "items__status__exact";
   "created_from"; "created_at__date__gte";
   "created_to"; "created_at__date__lte";
   "sort"].

(** A parameter that is missing or empty. *)
Definition blank (v : option string) : Prop := v = None \/ v = Some "".

End KnownParams.

(** ** The dashboard views ([catalog/admin_views.py]) *)

Module Views.
Import Py PyLib Models.


(** What a view can raise, and the outcome of a computation of a view. *)
Inductive Raised := RaisedValueError | RaisedTypeError | RaisedOverflowError.

Definition outcome (A : Type) : Type := (Raised + A)%type.

Definition of_result {A} (r : result A) : outcome A :=
  match r with
  | Ok a => inr a
  | Raise ValueError => inl RaisedValueError
  | Raise TypeError => inl RaisedTypeError
  end.

Definition and_then {A B} (m : outcome A) (k : A -> outcome B) : outcome B :=
  match m with
  | inr a => k a
  | inl e => inl e
  end.

#[local] Notation "'let*' x ':=' m 'in' k" := (and_then m (fun x => k))
  (at level 10, x name, m at level 100, k at level 200).

(** [date(year, month, day)]: [ValueError] unless it is a day of the
    calendar in the years 1 to 9999. *)
Definition make_date (y m d : Z) : outcome date :=
  if Numerals.valid_date (Date y m d) then inr (Date y m d)
  else inl RaisedValueError.

(** [d + timedelta(days=1)]: [OverflowError] after 31 December 9999. *)
Definition add_one_day (d : date) : outcome date :=
  if day d <? days_in_month (year d) (month d)
  then inr (Date (year d) (month d) (day d + 1))
  else if month d <? 12 then inr (Date (year d) (month d + 1) 1)
  else if year d <? 9999 then inr (Date (year d + 1) 1 1)
  else inl RaisedOverflowError.

(** The period of [admin_book_stats_api]: kind, year, month, first day and
    the day after the last. *)
Record Period := {
  kind : string;
  p_year : Z;
  p_month : Z;
  start : date;
  end_exclusive : date
}.

(** The head of [admin_book_stats_api], up to [start] and [end]; [now] is
    the date of [timezone.now()]. *)
Definition stats_period (now : date) (GET : gmap string string)
  : outcome Period :=
  let period := lower (or_str (GET !! "period") "month") in
  let* year :=
    of_result
      (try_except_ValueError
         (match GET !! "year" with
          | Some s => int s
          | None => Ok (Py.year now)
          end)
         (Ok (Py.year now))) in
  let* month :=
    of_result
      (try_except_ValueError
         (match GET !! "month" with
          | Some s => int s
          | None => Ok (Py.month now)
          end)
         (Ok (Py.month now))) in
  if String.eqb period "year" then
    let* start := make_date year 1 1 in
    let* end_ := make_date (year + 1) 1 1 in
    inr {| kind := period; p_year := year; p_month := month;
           start := start; end_exclusive := end_ |}
  else
    (* default to month *)
    let month := Z.max 1 (Z.min 12 month) in
    let* start := make_date year month 1 in
    let last_day := days_in_month year month in
    let* last := make_date year month last_day in
    let* end_ := add_one_day last in
    inr {| kind := period; p_year := year; p_month := month;
           start := start; end_exclusive := end_ |}.

(** The integer a view reads for a parameter: the default when the
    parameter is missing or is no integer. *)
Definition param_int (v : option string) (default : Z) : Z :=
  match v with
  | Some s => match int s with Ok n => n | Raise _ => default end
  | None => default
  end.

(** The first day of the month after month [m] of year [y]. *)
Definition next_month_start (y m : Z) : date :=
  if m <? 12 then Date y (m + 1) 1 else Date (y + 1) 1 1.

(** [approved_from__gte=start, approved_from__lt=end] *)
Definition loans_in_period (start end_ : date) : Orm.QuerySet Loan :=
  fun _ l => negb (date_ltb (approved_from l) start)
             && date_ltb (approved_from l) end_.

(** [.annotate(k=Extract(...)).values(k).annotate(total=Count("id"))]
    turned into the dictionary [{row[k]: row["total"]}]: one entry per
    value of the key among the rows, holding the number of those rows. *)
Definition count_by (key : Loan -> Z) (rows : list (Z * Loan)) : gmap Z Z :=
  foldr (fun kv by_key =>
           <[key kv.2 := default 0 (by_key !! key kv.2) + 1]> by_key)
        ∅ rows.

Record TimeSeries := {
  series_type : string;
  labels : list string;
  values : list Z
}.

(** The time series of [admin_book_stats_api]: loans per month of the
    year, or per day of the month. *)
Definition time_series (p : Period) (t : gmap Z Loan) : TimeSeries :=
  let rows := Orm.rows (loans_in_period (start p) (end_exclusive p)) t in
  if String.eqb (kind p) "year" then
    let by_key := count_by (fun l => Py.month (approved_from l)) rows in
    {| series_type := "by_month";
       labels := map str_of_Z (seqZ 1 12);
       values := map (fun m => default 0 (by_key !! m)) (seqZ 1 12) |}
  else
    (* month view: by day *)
    let last_day := days_in_month (p_year p) (p_month p) in
    let by_key := count_by (fun l => Py.day (approved_from l)) rows in
    {| series_type := "by_day";
       labels := map str_of_Z (seqZ 1 last_day);
       values := map (fun d => default 0 (by_key !! d)) (seqZ 1 last_day) |}.

(** [sum(values)] *)
Definition total (values : list Z) : Z := foldr Z.add 0 values.

End Views.

(** * Properties *)

Import Py PyLib Models Admin Lifecycle Params Samples.

(** ** The object-relational layer *)

(** An update touches exactly the rows its query set selects. *)
Lemma update_lookup {A} (qs : Orm.QuerySet A) (set : A -> A) (t : gmap Z A) (pk : Z) :
  (Orm.update qs set t).2 !! pk
  = (fun r => if qs pk r then set r else r) <$> (t !! pk).
Proof.
  unfold Orm.update; simpl. rewrite map_lookup_imap.
  destruct (t !! pk); reflexivity.
Qed.

Lemma update_count {A} (qs : Orm.QuerySet A) (set : A -> A) (t : gmap Z A) :
  (Orm.update qs set t).1 = Orm.count qs t.
Proof. reflexivity. Qed.

Lemma update_none {A} (qs : Orm.QuerySet A) (set : A -> A) (t : gmap Z A) :
  (forall pk r, t !! pk = Some r -> qs pk r = true -> set r = r) ->
  (Orm.update qs set t).2 = t.
Proof.
  intros H. apply map_eq; intros pk. rewrite update_lookup.
  destruct (t !! pk) as [r|] eqn:E; simpl; [|reflexivity].
  destruct (qs pk r) eqn:Q; [|reflexivity].
  f_equal. eauto.
Qed.

(** ** What each action does to the tables *)

Ltac run_action :=
  unfold exec, run_bulk, approve_selected, reject_selected,
    mark_selected_expired, mark_as_returned, mark_overdue_due,
    activate_users, deactivate_users, Admin.bind, update_borrow_requests,
    update_loans, update_users, count_users, messages_success,
    messages_info, messages_error, add_message;
  simpl.

Lemma approve_selected_requests request queryset w :
  borrow_requests (db (exec (approve_selected request queryset) w))
  = (Orm.update (Orm.filter queryset is_pending)
       (decide_request APPROVED (now request) (user request) "")
       (borrow_requests (db w))).2.
Proof. run_action. reflexivity. Qed.

Lemma reject_selected_requests request queryset w :
  let reason := strip (default "" (POST request !! "rejection_reason")) in
  borrow_requests (db (exec (reject_selected request queryset) w))
  = if truthy reason
    then (Orm.update (Orm.filter queryset is_pending)
            (decide_request REJECTED (now request) (user request) reason)
            (borrow_requests (db w))).2
    else borrow_requests (db w).
Proof.
  run_action. destruct (truthy _); reflexivity.
Qed.

Lemma mark_selected_expired_requests request queryset w :
  borrow_requests (db (exec (mark_selected_expired request queryset) w))
  = (Orm.update
       (Orm.filter queryset
          (Orm.filter is_pending (requested_to_lt (dt_date (now request)))))
       (set_br_status EXPIRED) (borrow_requests (db w))).2.
Proof.
  run_action. destruct (negb _); reflexivity.
Qed.

Lemma mark_overdue_due_loans request queryset w :
  loans (db (exec (mark_overdue_due request queryset) w))
  = (Orm.update
       (Orm.filter queryset
          (fun _ l => date_ltb (due_date l) (dt_date (now request))
                      && bool_decide (ln_status l = BORROWED)))
       (set_ln_status OVERDUE) (loans (db w))).2.
Proof.
  run_action. destruct (negb _); reflexivity.
Qed.

Lemma mark_as_returned_loans request queryset w :
  loans (db (exec (mark_as_returned request queryset) w))
  = (Orm.update queryset (set_returned (dt_date (now request))) (loans (db w))).2.
Proof. run_action. reflexivity. Qed.

Lemma deactivate_users_users request queryset w :
  users (db (exec (deactivate_users request queryset) w))
  = (Orm.update (Orm.exclude queryset (fun pk _ => pk =? user request))
       (set_is_active false) (users (db w))).2.
Proof. run_action. reflexivity. Qed.

(** The bulk actions on borrow requests write the request table only. *)
Lemma run_bulk_loans a request queryset w :
  loans (db (exec (run_bulk a request queryset) w)) = loans (db w).
Proof.
  destruct a; run_action; try reflexivity.
  - destruct (truthy _); reflexivity.
  - destruct (negb _); reflexivity.
Qed.

(** ** C1 *)

(** C1. Whatever the bulk action (approve, reject, mark expired), the
    request, the selection and the state: the request is still there
    afterwards, its status is different only if it was PENDING, and a
    request that was APPROVED, REJECTED, CANCELLED or EXPIRED is left
    exactly as it was. *)
Theorem bulk_action_moves_only_pending
  (a : BulkAction) (request : HttpRequest)
  (queryset : Orm.QuerySet BorrowRequest) (w : World)
  (pk : Z) (r : BorrowRequest) :
  borrow_requests (db w) !! pk = Some r ->
  exists r',
    borrow_requests (db (exec (run_bulk a request queryset) w)) !! pk = Some r'
    /\ (br_status r' <> br_status r -> br_status r = PENDING)
    /\ (br_status r <> PENDING -> r' = r).
Proof.
  intros Hr.
  assert (Hnp : br_status r <> PENDING -> is_pending pk r = false).
  { intros Hs. unfold is_pending. apply bool_decide_eq_false. exact Hs. }
  destruct a; cbn [run_bulk].
  - rewrite approve_selected_requests, update_lookup, Hr; simpl.
    eexists; split; [reflexivity|]. unfold Orm.filter.
    destruct (decide (br_status r = PENDING)) as [Hp|Hp].
    + split; [auto | congruence].
    + rewrite (Hnp Hp), andb_false_r. split; [congruence | reflexivity].
  - rewrite reject_selected_requests; cbv zeta.
    destruct (truthy _).
    + rewrite update_lookup, Hr; simpl.
      eexists; split; [reflexivity|]. unfold Orm.filter.
      destruct (decide (br_status r = PENDING)) as [Hp|Hp].
      * split; [auto | congruence].
      * rewrite (Hnp Hp), andb_false_r. split; [congruence | reflexivity].
    + exists r. split; [exact Hr|]. split; [congruence | reflexivity].
  - rewrite mark_selected_expired_requests, update_lookup, Hr; simpl.
    eexists; split; [reflexivity|]. unfold Orm.filter.
    destruct (decide (br_status r = PENDING)) as [Hp|Hp].
    + split; [auto | congruence].
    + rewrite (Hnp Hp), andb_false_l, andb_false_r.
      split; [congruence | reflexivity].
Qed.

(** The approved request 3 of [world0] under [approve_selected]. *)
Lemma bulk_action_moves_only_pending_witness :
  exists r',
    borrow_requests (db (exec (run_bulk ApproveSelected request0 Orm.all) world0)) !! 3
    = Some r'
    /\ (br_status r' <> br_status (sample_request (Date 2024 2 15) APPROVED)
        -> br_status (sample_request (Date 2024 2 15) APPROVED) = PENDING)
    /\ (br_status (sample_request (Date 2024 2 15) APPROVED) <> PENDING
        -> r' = sample_request (Date 2024 2 15) APPROVED).
Proof.
  apply (bulk_action_moves_only_pending ApproveSelected request0 Orm.all world0 3).
  vm_compute. reflexivity.
Defined.

(** ** C3 *)

(** The selection [mark_selected_expired] writes to is the one the
    "Overdue (pending)" list filter shows under "yes". *)
Lemma mark_selected_expired_selects_overdue request queryset :
  OverdueRequestFilter_queryset (Some "yes") request queryset
  = Orm.filter queryset
      (Orm.filter is_pending (requested_to_lt (dt_date (now request)))).
Proof. reflexivity. Qed.

(** C3. [mark_selected_expired] sets a selected request to EXPIRED exactly
    when it is PENDING and its [requested_to] lies strictly before today;
    every other request is left as it was, so that a request which is
    EXPIRED afterwards either was EXPIRED before or was a selected PENDING
    request whose end date had passed. *)
Theorem mark_selected_expired_exactly_overdue_pending
  (request : HttpRequest) (queryset : Orm.QuerySet BorrowRequest)
  (w : World) (pk : Z) (r : BorrowRequest) :
  borrow_requests (db w) !! pk = Some r ->
  let today := dt_date (now request) in
  let due := queryset pk r = true /\ br_status r = PENDING
             /\ date_ltb (requested_to r) today = true in
  exists r',
    borrow_requests (db (exec (mark_selected_expired request queryset) w)) !! pk
    = Some r'
    /\ (due -> r' = set_br_status EXPIRED r /\ br_status r' = EXPIRED)
    /\ (~ due -> r' = r)
    /\ (br_status r' = EXPIRED -> br_status r = EXPIRED \/ due).
Proof.
  intros Hr today due.
  rewrite mark_selected_expired_requests, update_lookup, Hr; simpl.
  eexists; split; [reflexivity|].
  unfold Orm.filter, is_pending, requested_to_lt. fold today.
  destruct (queryset pk r) eqn:Hq; simpl;
    [destruct (bool_decide_reflect (br_status r = PENDING)) as [Hp|Hp]; simpl;
     [destruct (date_ltb (requested_to r) today) eqn:Hd; simpl|]|].
  - split; [auto|]. split; [|right; repeat split; auto].
    intros Hn. exfalso. apply Hn. repeat split; auto.
  - split; [intros (_ & _ & H); discriminate|]. split; [reflexivity|auto].
  - split; [intros (_ & H & _); contradiction|]. split; [reflexivity|auto].
  - split; [intros (H & _); discriminate|]. split; [reflexivity|auto].
Qed.

(** Request 1 of [world0] ended on 15 February and expires on 1 March. *)
Lemma mark_selected_expired_exactly_overdue_pending_witness :
  exists r',
    borrow_requests (db (exec (mark_selected_expired request0 Orm.all) world0)) !! 1
    = Some r'
    /\ br_status r' = EXPIRED.
Proof.
  destruct (mark_selected_expired_exactly_overdue_pending request0 Orm.all
              world0 1 (sample_request (Date 2024 2 15) PENDING))
    as (r' & Hr' & Hdue & _).
  - vm_compute. reflexivity.
  - exists r'. split; [exact Hr'|]. apply Hdue.
    repeat split; vm_compute; reflexivity.
Defined.

(** ** C6 *)

(** C6. [mark_overdue_due] sets a selected loan to OVERDUE exactly when it
    is BORROWED and its [due_date] lies strictly before today; every other
    loan, selected or not, is left as it was. *)
Theorem mark_overdue_due_exactly_borrowed_past_due
  (request : HttpRequest) (queryset : Orm.QuerySet Loan)
  (w : World) (pk : Z) (l : Loan) :
  loans (db w) !! pk = Some l ->
  let today := dt_date (now request) in
  let past_due := queryset pk l = true /\ ln_status l = BORROWED
                  /\ date_ltb (due_date l) today = true in
  exists l',
    loans (db (exec (mark_overdue_due request queryset) w)) !! pk = Some l'
    /\ (past_due -> l' = set_ln_status OVERDUE l /\ ln_status l' = OVERDUE)
    /\ (~ past_due -> l' = l).
Proof.
  intros Hl today past_due.
  rewrite mark_overdue_due_loans, update_lookup, Hl; simpl.
  eexists; split; [reflexivity|].
  unfold Orm.filter. fold today.
  destruct (queryset pk l) eqn:Hq; simpl;
    [destruct (date_ltb (due_date l) today) eqn:Hd; simpl;
     [destruct (bool_decide_reflect (ln_status l = BORROWED)) as [Hp|Hp]; simpl|]|].
  - split; [auto|]. intros Hn. exfalso. apply Hn. repeat split; auto.
  - split; [intros (_ & H & _); contradiction|reflexivity].
  - split; [intros (_ & _ & H); discriminate|reflexivity].
  - split; [intros (H & _); discriminate|reflexivity].
Qed.

(** Loan 50 of [world0] was due on 20 February and is overdue on 1 March. *)
Lemma mark_overdue_due_exactly_borrowed_past_due_witness :
  exists l',
    loans (db (exec (mark_overdue_due request0 Orm.all) world0)) !! 50 = Some l'
    /\ ln_status l' = OVERDUE.
Proof.
  destruct (mark_overdue_due_exactly_borrowed_past_due request0 Orm.all
              world0 50 (sample_loan 101 (Date 2024 2 20) BORROWED))
    as (l' & Hl' & Hdue & _).
  - vm_compute. reflexivity.
  - exists l'. split; [exact Hl'|]. apply Hdue.
    repeat split; vm_compute; reflexivity.
Defined.

(** ** C8 *)

(** C8. When the submitted rejection reason is empty after stripping,
    [reject_selected] leaves the whole database as it was, whatever the
    selection, and its only effect is one error message. *)
Theorem reject_selected_blank_reason_changes_nothing
  (request : HttpRequest) (queryset : Orm.QuerySet BorrowRequest) (w : World) :
  strip (default "" (POST request !! "rejection_reason")) = "" ->
  exec (reject_selected request queryset) w
  = {| db := db w;
       messages :=
         (messages w ++
          [{| level := ERROR;
              text := "Please provide a rejection reason in the action bar before rejecting." |}])%list |}.
Proof.
  intros Hblank. unfold exec, reject_selected. rewrite Hblank. reflexivity.
Qed.

(** A reason made of three blanks rejects nothing in [world0]. *)
Lemma reject_selected_blank_reason_changes_nothing_witness :
  db (exec (reject_selected request_blank Orm.all) world0) = db world0.
Proof.
  rewrite (reject_selected_blank_reason_changes_nothing request_blank Orm.all world0).
  - reflexivity.
  - vm_compute. reflexivity.
Defined.

(** ** C9 *)

(** C9. [deactivate_users] leaves the row of the user who runs it as it
    was, sets [is_active] to [False] on every other selected user, and
    leaves the users outside the selection alone. *)
Theorem deactivate_users_spares_requesting_user
  (request : HttpRequest) (queryset : Orm.QuerySet User) (w : World) :
  let after := users (db (exec (deactivate_users request queryset) w)) in
  after !! user request = users (db w) !! user request
  /\ (forall pk u,
        users (db w) !! pk = Some u -> queryset pk u = true ->
        pk <> user request ->
        after !! pk = Some (set_is_active false u)
        /\ is_active (set_is_active false u) = false)
  /\ (forall pk u,
        users (db w) !! pk = Some u -> queryset pk u = false ->
        after !! pk = Some u).
Proof.
  cbv zeta. rewrite deactivate_users_users. split; [|split].
  - rewrite update_lookup.
    destruct (users (db w) !! user request) as [u|]; simpl; [|reflexivity].
    unfold Orm.exclude. rewrite Z.eqb_refl, andb_false_r. reflexivity.
  - intros pk u Hu Hsel Hne. split; [|reflexivity].
    rewrite update_lookup, Hu; simpl. unfold Orm.exclude. rewrite Hsel.
    apply Z.eqb_neq in Hne. rewrite Hne. reflexivity.
  - intros pk u Hu Hsel.
    rewrite update_lookup, Hu; simpl. unfold Orm.exclude. rewrite Hsel.
    reflexivity.
Qed.

(** ** C2 *)

(** C2 as the specification has it fails: approving the pending request 1
    of [world0], which asks for a copy of book 7, sets it to APPROVED and
    leaves it without any loan. *)
Lemma approve_selected_spawns_no_loan :
  let after := db (exec (approve_selected request0 Orm.all) world0) in
  br_status <$> borrow_requests (db world0) !! 1 = Some PENDING
  /\ br_status <$> borrow_requests after !! 1 = Some APPROVED
  /\ ~ loans_spawned_for 1 after.
Proof.
  cbv zeta. split; [vm_compute; reflexivity|]. split; [vm_compute; reflexivity|].
  intros Hspawn.
  destruct (Hspawn 10 {| bri_request := 1; bri_book := 7; quantity := 1 |})
    as (loan_pk & ln & Hln & Hreq & _).
  - vm_compute. reflexivity.
  - reflexivity.
  - change (approve_selected request0 Orm.all)
      with (run_bulk ApproveSelected request0 Orm.all) in Hln.
    rewrite run_bulk_loans in Hln. simpl in Hln.
    apply lookup_singleton_Some in Hln as [_ <-]. discriminate Hreq.
Qed.

(** C2, amended. [approve_selected] records the decision on every selected
    PENDING request (status APPROVED, the deciding admin, the decision
    time, an empty rejection reason) and writes nothing else: the loan
    table, the request items and the copies are as before, so no loan is
    created by the action. *)
Theorem approve_selected_records_decision_only
  (request : HttpRequest) (queryset : Orm.QuerySet BorrowRequest) (w : World) :
  let after := db (exec (approve_selected request queryset) w) in
  loans after = loans (db w)
  /\ book_items after = book_items (db w)
  /\ borrow_request_items after = borrow_request_items (db w)
  /\ (forall pk r,
        borrow_requests (db w) !! pk = Some r ->
        queryset pk r = true -> br_status r = PENDING ->
        borrow_requests after !! pk
        = Some (decide_request APPROVED (now request) (user request) "" r)).
Proof.
  cbv zeta. repeat split.
  intros pk r Hr Hsel Hp.
  rewrite approve_selected_requests, update_lookup, Hr; simpl.
  unfold Orm.filter, is_pending. rewrite Hsel, Hp. reflexivity.
Qed.

(** ** C4 *)

Section FirstMatch.
Context {A : Type} (p : A -> bool).

(** The first match of a list is the head of its matches. *)
Lemma find_head_filter (l : list A) :
  List.find p l = head (List.filter p l).
Proof.
  induction l as [|x l IH]; simpl; [reflexivity|].
  destruct (p x); simpl; [reflexivity | exact IH].
Qed.

Lemma Permutation_list_filter (l l' : list A) :
  Permutation l l' -> Permutation (List.filter p l) (List.filter p l').
Proof.
  induction 1 as [|x l l' _ IH|x y l|l l' l'' _ IH1 _ IH2]; simpl.
  - constructor.
  - destruct (p x); [constructor|]; exact IH.
  - destruct (p x), (p y); try reflexivity. constructor.
  - etransitivity; eassumption.
Qed.

Lemma Permutation_short (l l' : list A) :
  Permutation l l' -> (length l <= 1)%nat -> l = l'.
Proof.
  intros HP Hlen. destruct l as [|x [|y l]]; simpl in Hlen.
  - symmetry. apply Permutation_nil. exact HP.
  - symmetry. apply Permutation_length_1_inv. exact HP.
  - lia.
Qed.

(** When a list has at most one match, every arrangement of it has the
    same first match. *)
Lemma find_unique_up_to_order (l l' : list A) :
  (length (List.filter p l) <= 1)%nat ->
  Permutation l l' ->
  List.find p l' = List.find p l.
Proof.
  intros Hlen HP. rewrite !find_head_filter.
  rewrite (Permutation_short _ _ (Permutation_list_filter _ _ HP) Hlen).
  reflexivity.
Qed.

Lemma find_the_only_match (l : list A) (x : A) :
  (length (List.filter p l) <= 1)%nat ->
  In x l -> p x = true -> List.find p l = Some x.
Proof.
  intros Hlen Hin Hp. rewrite find_head_filter.
  assert (Hx : In x (List.filter p l)) by (apply filter_In; auto).
  destruct (List.filter p l) as [|y [|z r]]; simpl in *.
  - contradiction.
  - destruct Hx as [->|[]]. reflexivity.
  - lia.
Qed.

End FirstMatch.

Lemma all_equal_short {A} (l : list A) :
  List.NoDup l -> (forall x y, In x l -> In y l -> x = y) ->
  (length l <= 1)%nat.
Proof.
  intros Hnd Heq. destruct l as [|x [|y l]]; simpl; try lia.
  exfalso. inversion Hnd as [|? ? Hnotin _]; subst.
  apply Hnotin. left. apply Heq; simpl; auto.
Qed.

Lemma rows_In {A} (qs : Orm.QuerySet A) (t : gmap Z A) (pk : Z) (r : A) :
  In (pk, r) (Orm.rows qs t) <-> t !! pk = Some r /\ qs pk r = true.
Proof.
  unfold Orm.rows. rewrite filter_In, <- list_elem_of_In, elem_of_map_to_list.
  reflexivity.
Qed.

Lemma rows_NoDup {A} (qs : Orm.QuerySet A) (t : gmap Z A) :
  List.NoDup (Orm.rows qs t).
Proof.
  unfold Orm.rows. apply List.NoDup_filter, NoDup_ListNoDup, NoDup_map_to_list.
Qed.

(** Under the invariant, the loans listed for one copy hold at most one
    BORROWED loan. *)
Lemma borrowed_loans_of_item_short (t : gmap Z Loan) (item_pk : Z) :
  one_borrowed_loan_per_item t ->
  (length (List.filter is_borrowed (map snd (Orm.rows (loans_of_item item_pk) t)))
   <= 1)%nat.
Proof.
  intros Hinv. rewrite filter_map_swap, length_map.
  apply all_equal_short.
  - apply List.NoDup_filter, rows_NoDup.
  - intros [pk1 ln1] [pk2 ln2] H1 H2.
    apply filter_In in H1 as [H1 B1]. apply filter_In in H2 as [H2 B2].
    apply rows_In in H1 as [H1 I1]. apply rows_In in H2 as [H2 I2].
    simpl in B1, B2. unfold is_borrowed in B1, B2.
    apply bool_decide_eq_true in B1, B2.
    unfold loans_of_item in I1, I2. apply Z.eqb_eq in I1, I2.
    assert (pk1 = pk2) by (eapply Hinv; eauto; congruence).
    subst pk2. congruence.
Qed.

Lemma one_borrowed_loan_empty : one_borrowed_loan_per_item ∅.
Proof. intros pk1 pk2 ln1 ln2 H. rewrite lookup_empty in H. discriminate. Qed.

(** An update that keeps the copy of each loan and never produces a new
    BORROWED loan keeps the invariant. *)
Lemma one_borrowed_loan_update (qs : Orm.QuerySet Loan) (set : Loan -> Loan)
  (t : gmap Z Loan) :
  (forall ln, ln_book_item (set ln) = ln_book_item ln) ->
  (forall ln, ln_status (set ln) <> BORROWED) ->
  one_borrowed_loan_per_item t ->
  one_borrowed_loan_per_item (Orm.update qs set t).2.
Proof.
  intros Hitem Hst Hinv pk1 pk2 ln1 ln2 H1 H2 B1 B2 Hsame.
  rewrite update_lookup in H1, H2.
  destruct (t !! pk1) as [o1|] eqn:E1; simpl in H1; [|discriminate].
  destruct (t !! pk2) as [o2|] eqn:E2; simpl in H2; [|discriminate].
  injection H1 as <-. injection H2 as <-.
  destruct (qs pk1 o1); [exfalso; eapply Hst; eassumption|].
  destruct (qs pk2 o2); [exfalso; eapply Hst; eassumption|].
  eapply Hinv; eassumption.
Qed.

Lemma no_borrowed_loan (t : gmap Z Loan) (item_pk pk : Z) (ln : Loan) :
  has_borrowed_loan item_pk t = false ->
  t !! pk = Some ln -> ln_status ln = BORROWED ->
  ln_book_item ln <> item_pk.
Proof.
  unfold has_borrowed_loan, Orm.count. intros Hnone Hln Hb Hitem.
  apply negb_false_iff, Nat.eqb_eq, length_zero_iff_nil in Hnone.
  assert (Hin : In (pk, ln)
                  (Orm.rows (Orm.filter (loans_of_item item_pk)
                     (fun _ l => bool_decide (ln_status l = BORROWED))) t)).
  { apply rows_In. split; [exact Hln|].
    unfold Orm.filter, loans_of_item. rewrite Hitem, Z.eqb_refl, Hb.
    reflexivity. }
  rewrite Hnone in Hin. contradiction.
Qed.

Lemma one_borrowed_loan_create (pk rq ri item_pk : Z) (from due : date) (w : World) :
  one_borrowed_loan_per_item (loans (db w)) ->
  one_borrowed_loan_per_item
    (loans (db (exec (create_loan pk rq ri item_pk from due) w))).
Proof.
  intros Hinv. unfold exec, create_loan.
  destruct (loans (db w) !! pk) eqn:Efree; simpl; [exact Hinv|].
  destruct (has_borrowed_loan item_pk (loans (db w))) eqn:Enone; simpl;
    [exact Hinv|].
  intros pk1 pk2 ln1 ln2 H1 H2 B1 B2 Hsame.
  rewrite lookup_insert in H1, H2.
  destruct (decide (pk = pk1)) as [<-|N1], (decide (pk = pk2)) as [<-|N2];
    [reflexivity| | |eapply Hinv; eassumption].
  - injection H1 as <-. simpl in Hsame. exfalso.
    eapply no_borrowed_loan; eauto.
  - injection H2 as <-. simpl in Hsame. exfalso.
    eapply no_borrowed_loan; eauto.
Qed.

(** Every operation keeps the invariant. *)
Lemma one_borrowed_loan_run (op : Operation) (w : World) :
  one_borrowed_loan_per_item (loans (db w)) ->
  one_borrowed_loan_per_item (loans (db (run op w))).
Proof.
  intros Hinv. destruct op; cbn [run].
  - exact Hinv.
  - exact Hinv.
  - rewrite run_bulk_loans. exact Hinv.
  - rewrite mark_as_returned_loans.
    apply one_borrowed_loan_update; [reflexivity|discriminate|exact Hinv].
  - rewrite mark_overdue_due_loans.
    apply one_borrowed_loan_update; [reflexivity|discriminate|exact Hinv].
  - apply one_borrowed_loan_create. exact Hinv.
Qed.

(** C4. In every world the operations reach, no copy has two BORROWED
    loans; and the loan the Items sheet takes for a copy, the first
    BORROWED one among the copy's loans, does not depend on the order in
    which the loans are listed: it is the BORROWED loan of the copy
    whenever there is one. *)
Theorem one_borrowed_loan_per_item_reachable (w : World) :
  reachable w ->
  one_borrowed_loan_per_item (loans (db w))
  /\ forall (item_pk : Z) (listing : list Loan),
       Permutation (map snd (Orm.rows (loans_of_item item_pk) (loans (db w))))
                   listing ->
       Exports.current_loan listing
       = Exports.current_loan
           (map snd (Orm.rows (loans_of_item item_pk) (loans (db w))))
       /\ forall ln, In ln listing -> ln_status ln = BORROWED ->
                     Exports.current_loan listing = Some ln.
Proof.
  intros Hreach.
  assert (Hinv : one_borrowed_loan_per_item (loans (db w))).
  { induction Hreach as [w Hempty|op w _ IH].
    - rewrite Hempty. apply one_borrowed_loan_empty.
    - apply one_borrowed_loan_run. exact IH. }
  split; [exact Hinv|].
  intros item_pk listing HP.
  pose proof (borrowed_loans_of_item_short _ item_pk Hinv) as Hshort.
  split.
  - apply (find_unique_up_to_order is_borrowed); assumption.
  - intros ln Hin Hb.
    rewrite (find_unique_up_to_order is_borrowed _ _ Hshort HP : Exports.current_loan listing = _).
    apply (find_the_only_match is_borrowed); [exact Hshort| |].
    + eapply Permutation_in; [symmetry; exact HP|exact Hin].
    + unfold is_borrowed. rewrite Hb. reflexivity.
Qed.

(** A loan is made on copy 100 in the fresh world and then marked overdue. *)
Lemma one_borrowed_loan_per_item_reachable_witness :
  one_borrowed_loan_per_item
    (loans (db (run (OpMarkOverdueDue request0 Orm.all)
                  (run (OpCreateLoan 51 1 10 100 (Date 2024 2 1) (Date 2024 2 15))
                     world_fresh)))).
Proof.
  apply (one_borrowed_loan_per_item_reachable
           (run (OpMarkOverdueDue request0 Orm.all)
              (run (OpCreateLoan 51 1 10 100 (Date 2024 2 1) (Date 2024 2 15))
                 world_fresh))).
  apply reachable_step, reachable_step, reachable_init. reflexivity.
Defined.

(** ** The export parameters *)

Lemma int_blank : int "" = Raise ValueError.
Proof. reflexivity. Qed.

(** [int] raises nothing but [ValueError], which [_parse_int] handles. *)
Lemma _parse_int_value (v : option string) :
  Exports._parse_int v = Ok (int_value v).
Proof.
  unfold Exports._parse_int, int_value. destruct v as [s|]; [|reflexivity].
  destruct (String.eqb_spec s "") as [->|_]; simpl; [reflexivity|].
  unfold int. destruct (strip s) as [|c r]; simpl.
  - reflexivity.
  - destruct (match c with
              | "-"%char => (true, r)
              | "+"%char => (false, r)
              | _ => (false, String c r)
              end) as [negative body].
    destruct (digits_value body AtStart 0); reflexivity.
Qed.

Lemma _parse_date_value (s : string) :
  Exports._parse_date (Some s) = Ok (date_value s).
Proof.
  unfold Exports._parse_date, date_value, fromisoformat.
  destruct s as [|c r]; simpl; [reflexivity|].
  destruct (parse_iso_date (String c r)); reflexivity.
Qed.

(** The query [build_book_queryset] returns, field by field. *)
Lemma build_book_queryset_value (params : gmap string string) (include_items : bool) :
  Exports.build_book_queryset params include_items
  = Ok {| Exports.annotated := true;
          Exports.prefetch_item_loans := if include_items then true else false;
          Exports.filters := expected_filters params;
          Exports.is_distinct := true;
          Exports.ordering :=
            [if negb (Exports.str_in (sort_value params) Exports.allowed_sorts)
             then "title" else sort_value params] |}.
Proof.
  unfold Exports.build_book_queryset.
  rewrite !_parse_int_value, !_parse_date_value.
  unfold expected_filters.
  fold (q_value params) (category_value params) (author_value params)
    (publisher_value params) (year_from_value params) (year_to_value params)
    (language_value params) (item_status_supplied params)
    (created_from_value params) (created_to_value params) (sort_value params).
  generalize (q_value params) (int_value (category_value params))
    (int_value (author_value params)) (int_value (publisher_value params))
    (int_value (year_from_value params)) (int_value (year_to_value params))
    (language_value params) (upper (strip (item_status_supplied params)))
    (date_value (created_from_value params))
    (date_value (created_to_value params)) (sort_value params).
  intros q c a p yf yt lang st cf ct sort.
  destruct (truthy q), c, a, p, yf, yt, (truthy lang),
    (Exports.str_in st Exports.item_statuses), cf, ct; reflexivity.
Qed.

Lemma str_in_In (x : string) (l : list string) :
  Exports.str_in x l = true <-> In x l.
Proof.
  unfold Exports.str_in. rewrite existsb_exists. split.
  - intros (y & Hy & E). apply String.eqb_eq in E. subst. exact Hy.
  - intros H. exists x. split; [exact H|apply String.eqb_refl].
Qed.

Lemma In_when (f g : Exports.Lookup) (c : bool) :
  In f (when c g) <-> c = true /\ f = g.
Proof.
  destruct c; simpl; split; intros H.
  - destruct H as [<-|[]]. auto.
  - destruct H as [_ ->]. auto.
  - contradiction.
  - destruct H as [H _]. discriminate.
Qed.

Lemma In_of_option {A} (mk : A -> Exports.Lookup) (o : option A) (f : Exports.Lookup) :
  In f (of_option mk o) <-> exists a, o = Some a /\ f = mk a.
Proof.
  destruct o as [a|]; simpl; split; intros H.
  - destruct H as [<-|[]]. eauto.
  - destruct H as (b & [= <-] & ->). auto.
  - contradiction.
  - destruct H as (b & Hb & _). discriminate.
Qed.

(** A filter is in the query exactly when its parameter asks for it. *)
Lemma In_expected_filters (params : gmap string string) (f : Exports.Lookup) :
  In f (expected_filters params) <->
  (truthy (q_value params) = true /\ f = Exports.text_icontains (q_value params))
  \/ (exists n, int_value (category_value params) = Some n
                /\ f = Exports.categories__id n)
  \/ (exists n, int_value (author_value params) = Some n
                /\ f = Exports.authors__id n)
  \/ (exists n, int_value (publisher_value params) = Some n
                /\ f = Exports.publisher__id n)
  \/ (exists n, int_value (year_from_value params) = Some n
                /\ f = Exports.publish_year__gte n)
  \/ (exists n, int_value (year_to_value params) = Some n
                /\ f = Exports.publish_year__lte n)
  \/ (truthy (language_value params) = true
      /\ f = Exports.language_code__iexact (language_value params))
  \/ (Exports.str_in (upper (strip (item_status_supplied params)))
        Exports.item_statuses = true
      /\ f = Exports.items__status (upper (strip (item_status_supplied params))))
  \/ (exists d, date_value (created_from_value params) = Some d
                /\ f = Exports.created_at__date__gte d)
  \/ (exists d, date_value (created_to_value params) = Some d
                /\ f = Exports.created_at__date__lte d).
Proof.
  unfold expected_filters.
  rewrite !in_app_iff, !In_when, !In_of_option. reflexivity.
Qed.

Lemma item_status_filters_expected (params : gmap string string) (qs : Exports.BookQuery) :
  Exports.filters qs = expected_filters params ->
  item_status_filters qs
  = if Exports.str_in (upper (strip (item_status_supplied params)))
         Exports.item_statuses
    then [upper (strip (item_status_supplied params))] else [].
Proof.
  unfold item_status_filters, expected_filters. intros ->.
  rewrite !flat_map_app.
  assert (Hw : forall c f,
             (forall s, f <> Exports.items__status s) ->
             flat_map (fun f => match f with
                                | Exports.items__status s => [s]
                                | _ => []
                                end) (when c f) = []).
  { intros [] f Hf; simpl; [|reflexivity].
    destruct f; try reflexivity. exfalso. eapply Hf. reflexivity. }
  assert (Ho : forall A (mk : A -> Exports.Lookup) o,
             (forall a s, mk a <> Exports.items__status s) ->
             flat_map (fun f => match f with
                                | Exports.items__status s => [s]
                                | _ => []
                                end) (of_option mk o) = []).
  { intros A mk [a|] Hf; simpl; [|reflexivity].
    destruct (mk a) eqn:E; try reflexivity. exfalso. eapply Hf. exact E. }
  rewrite !Ho by discriminate.
  rewrite (Hw _ (Exports.text_icontains (q_value params))),
    (Hw _ (Exports.language_code__iexact (language_value params)))
    by discriminate.
  unfold when.
  destruct (Exports.str_in (upper (strip (item_status_supplied params)))
              Exports.item_statuses); reflexivity.
Qed.

(** ** C7 *)

(** C7. For every params mapping the query is built, and it carries an
    item-status condition exactly when the supplied value (the
    [item_status] parameter or, if that is empty, its change-list
    aliases), stripped and upper-cased, is one of AVAILABLE, RESERVED,
    LOANED, LOST, DAMAGED; the condition is then on that status, and any
    other value puts no item-status condition on the query. *)
Theorem item_status_filter_iff_known_status
  (params : gmap string string) (include_items : bool) :
  let status := upper (strip (item_status_supplied params)) in
  exists qs,
    Exports.build_book_queryset params include_items = Ok qs
    /\ (In status ["AVAILABLE"; "RESERVED"; "LOANED"; "LOST"; "DAMAGED"]
        -> item_status_filters qs = [status])
    /\ (~ In status ["AVAILABLE"; "RESERVED"; "LOANED"; "LOST"; "DAMAGED"]
        -> item_status_filters qs = [])
    /\ (forall s, In (Exports.items__status s) (Exports.filters qs)
                  <-> s = status /\ In status Exports.item_statuses).
Proof.
  intros status. eexists. split; [apply build_book_queryset_value|].
  match goal with
  | |- context [item_status_filters ?q] =>
      pose proof (item_status_filters_expected params q eq_refl) as Hsel
  end.
  fold status in Hsel.
  split; [|split].
  - intros Hin. apply (str_in_In status Exports.item_statuses) in Hin.
    rewrite Hsel, Hin. reflexivity.
  - intros Hnot. rewrite Hsel.
    destruct (Exports.str_in status Exports.item_statuses) eqn:E;
      [|reflexivity].
    exfalso. apply Hnot. apply (str_in_In status Exports.item_statuses), E.
  - intros s. simpl. rewrite In_expected_filters. fold status.
    rewrite (str_in_In status). split.
    + intros [(_ & H)|[(n & _ & H)|[(n & _ & H)|[(n & _ & H)|[(n & _ & H)
        |[(n & _ & H)|[(_ & H)|[(Hin & H)|[(d & _ & H)|(d & _ & H)]]]]]]]]];
        try discriminate H.
      injection H as ->. auto.
    + intros (-> & Hin). do 7 right. left. auto.
Qed.

(** ** C10 *)

(** Reads one kind of filter off the characterisation of the filters. *)
Ltac filter_kind :=
  let H := fresh "H" in
  split;
  [ intros H; repeat (destruct H as [H|H]);
    repeat match goal with
           | K : exists _, _ |- _ => destruct K as (? & ? & ?)
           | K : _ /\ _ |- _ => destruct K as (? & ?)
           end;
    congruence
  | intros H;
    repeat first
      [ solve [eexists; split; [exact H|reflexivity]]
      | solve [left; eexists; split; [exact H|reflexivity]]
      | right ] ].

(** C10 as stated fails on the sort key: a [sort] parameter with blanks
    around it is not one of the six keys, yet the query is not ordered by
    [title]: the parameter is stripped first. *)
Lemma sort_parameter_is_stripped_before_lookup :
  let params : gmap string string := {[ "sort" := " -title " ]} in
  params !! "sort" = Some " -title "
  /\ ~ In " -title " Exports.allowed_sorts
  /\ exists qs,
       Exports.build_book_queryset params false = Ok qs
       /\ Exports.ordering qs = ["-title"]
       /\ Exports.ordering qs <> ["title"].
Proof.
  cbv zeta. split; [vm_compute; reflexivity|]. split.
  - intros H. apply str_in_In in H. vm_compute in H. discriminate H.
  - eexists. split; [apply build_book_queryset_value|].
    split; [vm_compute; reflexivity|]. vm_compute. discriminate.
Qed.

(** C10, amended. [_parse_int] and [_parse_date] turn a malformed value
    into [None], as they do for a missing one, instead of raising;
    [build_book_queryset] returns a query for every params mapping; a
    numeric or date condition is in the query exactly when the value read
    for it is well formed, so a malformed value contributes nothing; and
    the ordering key is one of the six allowed keys: the [sort] parameter
    stripped of surrounding blanks when that is one of them, [title]
    otherwise, in particular when [sort] is missing or empty. *)
Theorem build_book_queryset_total_and_ordered
  (params : gmap string string) (include_items : bool) :
  (forall v, (forall n, int v <> Ok n) ->
             Exports._parse_int (Some v) = Ok None
             /\ Exports._parse_int None = Ok None)
  /\ (forall v, (forall d, fromisoformat v <> Ok d) ->
                Exports._parse_date (Some v) = Ok None
                /\ Exports._parse_date None = Ok None)
  /\ exists qs,
       Exports.build_book_queryset params include_items = Ok qs
       /\ (forall n, In (Exports.categories__id n) (Exports.filters qs)
                     <-> int_value (category_value params) = Some n)
       /\ (forall n, In (Exports.authors__id n) (Exports.filters qs)
                     <-> int_value (author_value params) = Some n)
       /\ (forall n, In (Exports.publisher__id n) (Exports.filters qs)
                     <-> int_value (publisher_value params) = Some n)
       /\ (forall n, In (Exports.publish_year__gte n) (Exports.filters qs)
                     <-> int_value (year_from_value params) = Some n)
       /\ (forall n, In (Exports.publish_year__lte n) (Exports.filters qs)
                     <-> int_value (year_to_value params) = Some n)
       /\ (forall d, In (Exports.created_at__date__gte d) (Exports.filters qs)
                     <-> date_value (created_from_value params) = Some d)
       /\ (forall d, In (Exports.created_at__date__lte d) (Exports.filters qs)
                     <-> date_value (created_to_value params) = Some d)
       /\ (exists key, Exports.ordering qs = [key]
                       /\ In key Exports.allowed_sorts)
       /\ (In (sort_value params) Exports.allowed_sorts
           -> Exports.ordering qs = [sort_value params])
       /\ (~ In (sort_value params) Exports.allowed_sorts
           -> Exports.ordering qs = ["title"])
       /\ (params !! "sort" = None \/ params !! "sort" = Some ""
           -> Exports.ordering qs = ["title"]).
Proof.
  split; [|split].
  - intros v Hbad. split; [|reflexivity].
    rewrite _parse_int_value. unfold int_value.
    destruct (int v) as [n|e]; [|reflexivity]. exfalso. eapply Hbad. reflexivity.
  - intros v Hbad. split; [|reflexivity].
    rewrite _parse_date_value. unfold date_value.
    destruct (fromisoformat v) as [d|e]; [|reflexivity].
    exfalso. eapply Hbad. reflexivity.
  - eexists. split; [apply build_book_queryset_value|].
    cbn [Exports.filters Exports.ordering].
    assert (Hkind : forall f, In f (expected_filters params) <-> _)
      by (intros f; apply In_expected_filters).
    do 7 (split; [intros x; rewrite Hkind; clear Hkind; filter_kind|]).
    clear Hkind.
    destruct (Exports.str_in (sort_value params) Exports.allowed_sorts) eqn:E;
      cbn [negb].
    + apply (str_in_In (sort_value params)) in E.
      split; [eauto|]. split; [reflexivity|].
      split; [intros Hnot; contradiction|].
      intros Hmissing. unfold sort_value in *.
      destruct Hmissing as [-> | ->]; reflexivity.
    + split; [eexists; split; [reflexivity|simpl; auto]|].
      split; [|auto].
      intros Hin. apply (str_in_In (sort_value params)) in Hin. congruence.
Qed.

(** ** C5 *)

Section RenderProperties.
Context {float : Type}.
Variable round2 : float -> float.
Variable str_of_float : float -> string.
Variable item_status_display : ItemStatus -> string.
Variable loan_status_display : LoanStatus -> string.
Variable localtime_strftime : datetime -> string.

Abbreviation render_books_workbook :=
  (Exports.render_books_workbook round2 str_of_float item_status_display
     loan_status_display localtime_strftime).
Abbreviation _book_cell_value :=
  (Exports._book_cell_value round2 localtime_strftime).
Abbreviation item_row :=
  (Exports.item_row item_status_display loan_status_display localtime_strftime).



End RenderProperties.

(** ** The model at work *)

Example _parse_int_samples :
  Exports._parse_int (Some " 42 ") = Ok (Some 42)
  /\ Exports._parse_int (Some "1_000") = Ok (Some 1000)
  /\ Exports._parse_int (Some "4x") = Ok None
  /\ Exports._parse_int (Some "") = Ok None
  /\ Exports._parse_int None = Ok None.
Proof. repeat split; vm_compute; reflexivity. Qed.

Example _parse_date_samples :
  Exports._parse_date (Some "2024-02-29") = Ok (Some (Date 2024 2 29))
  /\ Exports._parse_date (Some "2023-02-29") = Ok None
  /\ Exports._parse_date (Some "29/02/2024") = Ok None
  /\ Exports._parse_date (Some "") = Ok None.
Proof. repeat split; vm_compute; reflexivity. Qed.

(** A malformed category, a status in lower case with blanks, a range of
    years given through the change-list parameter, a sort key. *)
Example build_book_queryset_sample :
  Exports.build_book_queryset
    {[ "category_id" := "fiction"; "item_status" := " lost ";
       "publish_year" := "1997"; "sort" := "-created_at" ]} true
  = Ok {| Exports.annotated := true;
          Exports.prefetch_item_loans := true;
          Exports.filters :=
            [Exports.publish_year__gte 1997; Exports.publish_year__lte 1997;
             Exports.items__status "LOST"];
          Exports.is_distinct := true;
          Exports.ordering := ["-created_at"] |}.
Proof. vm_compute. reflexivity. Qed.

(** An alias is read only when the parameter before it is empty: the
    malformed [category_id] hides a well-formed [categories__id__exact]. *)
Example malformed_value_hides_alias :
  Exports.filters
    <$> match Exports.build_book_queryset
                {[ "category_id" := "x"; "categories__id__exact" := "5" ]} false
        with Ok qs => Some qs | Raise _ => None end
  = Some [].
Proof. vm_compute. reflexivity. Qed.

Example deactivate_users_sample :
  let after := exec (deactivate_users request0 Orm.all) world0 in
  is_active <$> users (db after) !! 1 = Some true
  /\ is_active <$> users (db after) !! 2 = Some false
  /\ messages after
     = [{| level := SUCCESS;
           text := "Deactivated 1 user(s) (skipped 1 current user)" |}].
Proof. repeat split; vm_compute; reflexivity. Qed.

Example mark_selected_expired_sample :
  let after := exec (mark_selected_expired request0 Orm.all) world0 in
  br_status <$> borrow_requests (db after) !! 1 = Some EXPIRED
  /\ br_status <$> borrow_requests (db after) !! 2 = Some PENDING
  /\ br_status <$> borrow_requests (db after) !! 3 = Some APPROVED
  /\ messages after
     = [{| level := SUCCESS; text := "Marked 1 request(s) as expired" |}].
Proof. repeat split; vm_compute; reflexivity. Qed.

(** The second creation is refused: copy 100 is on loan already. *)
Example create_loan_twice :
  let w1 := run (OpCreateLoan 51 1 10 100 (Date 2024 2 1) (Date 2024 2 15))
                world_fresh in
  let w2 := run (OpCreateLoan 52 2 11 100 (Date 2024 2 2) (Date 2024 2 16)) w1 in
  ln_status <$> loans (db w1) !! 51 = Some BORROWED
  /\ loans (db w2) = loans (db w1).
Proof. split; vm_compute; reflexivity. Qed.

Example render_books_workbook_sample :
  Exports.render_books_workbook sample_round2 sample_str_of_float
    sample_item_status_display sample_loan_status_display
    sample_localtime_strftime [sample_book] (Some ["id"; "publish_year"; "isbn13"; "total_items"; "nope"])
    true
  = [ {| Exports.sheet_title := "Books";
         Exports.sheet_rows :=
           [ [Exports.CStr "Id"; Exports.CStr "Publish Year";
              Exports.CStr "Isbn13"; Exports.CStr "Total Items";
              Exports.CStr "Nope"];
             [Exports.CInt 7; Exports.CStr ""; Exports.CStr "9780747532699";
              Exports.CInt 2; Exports.CStr ""] ];
         Exports.column_widths := [4; 14; 15; 13; 6] |};
      {| Exports.sheet_title := "Items";
         Exports.sheet_rows :=
           [ map Exports.CStr Exports.item_headers;
             [Exports.CInt 7; Exports.CStr "Harry Potter";
              Exports.CStr "BK000701"; Exports.CStr "AVAILABLE";
              Exports.CStr "A1-1"; Exports.CStr "";
              Exports.CStr "No"; Exports.CStr ""; Exports.CStr ""];
             [Exports.CInt 7; Exports.CStr "Harry Potter";
              Exports.CStr "BK000702"; Exports.CStr "LOANED";
              Exports.CStr ""; Exports.CStr "";
              Exports.CStr "Yes"; Exports.CStr "2024-03-15";
              Exports.CStr "BORROWED"] ];
         Exports.column_widths := [9; 14; 10; 11; 10; 12; 18; 12; 13] |} ].
Proof. vm_compute. reflexivity. Qed.

(** [export_books_excel] never fails, and what it serialises is the
    workbook of [render_books_workbook] for the query it built. *)
Lemma export_books_excel_renders {float : Type}
  (round2 : float -> float) (str_of_float : float -> string)
  (item_status_display : ItemStatus -> string)
  (loan_status_display : LoanStatus -> string)
  (localtime_strftime : datetime -> string)
  (run_query : Exports.BookQuery -> list (@Exports.Book float))
  (GET : gmap string string) :
  exists qs columns include_items,
    Exports.build_book_queryset GET include_items = Ok qs
    /\ include_items
       = Exports.str_in (lower (or_str (GET !! "include_items") ""))
                        ["1"; "true"; "yes"]
    /\ Exports.export_books_excel round2 str_of_float item_status_display
         loan_status_display localtime_strftime run_query GET
       = Ok (Exports.render_books_workbook round2 str_of_float
               item_status_display loan_status_display localtime_strftime
               (run_query qs) columns include_items).
Proof.
  unfold Exports.export_books_excel.
  rewrite build_book_queryset_value. cbn [Py.bind].
  do 3 eexists. split; [apply build_book_queryset_value|].
  split; reflexivity.
Qed.

(** * Further properties *)

Import Py PyLib Models Admin Lifecycle Params Samples AdminMore Numerals.

(** ** Counting rows *)

Lemma count_empty {A} (qs : Orm.QuerySet A) : Orm.count qs ∅ = 0%nat.
Proof. unfold Orm.count, Orm.rows. rewrite map_to_list_empty. reflexivity. Qed.

Lemma count_insert {A} (qs : Orm.QuerySet A) (t : gmap Z A) (pk : Z) (r : A) :
  t !! pk = None ->
  Orm.count qs (<[pk := r]> t)
  = ((if qs pk r then 1 else 0) + Orm.count qs t)%nat.
Proof.
  intros Hfree. unfold Orm.count, Orm.rows.
  rewrite (Permutation_length
             (Permutation_list_filter _ _ _ (map_to_list_insert t pk r Hfree))).
  simpl. destruct (qs pk r); reflexivity.
Qed.

(** Counting after an update is counting, before it, the rows whose
    updated content is selected. *)
Lemma count_update {A} (sel qs : Orm.QuerySet A) (set : A -> A) (t : gmap Z A) :
  Orm.count sel (Orm.update qs set t).2
  = Orm.count (fun pk r => sel pk (if qs pk r then set r else r)) t.
Proof.
  unfold Orm.update; cbn [snd].
  induction t as [|pk r t Hfree IH] using map_ind.
  - rewrite map_imap_empty, !count_empty. reflexivity.
  - rewrite (map_imap_insert_Some _ _ _ _ _ eq_refl).
    rewrite count_insert by (rewrite map_lookup_imap, Hfree; reflexivity).
    rewrite (count_insert _ t) by exact Hfree.
    rewrite IH. reflexivity.
Qed.

Lemma count_ext {A} (p q : Orm.QuerySet A) (t : gmap Z A) :
  (forall pk r, t !! pk = Some r -> p pk r = q pk r) ->
  Orm.count p t = Orm.count q t.
Proof.
  intros H. unfold Orm.count, Orm.rows. f_equal.
  apply filter_ext_in. intros [pk r] Hin.
  apply list_elem_of_In, elem_of_map_to_list in Hin. apply H, Hin.
Qed.

(** Two selections that exclude each other count separately. *)
Lemma count_disjoint_or {A} (p q : Orm.QuerySet A) (t : gmap Z A) :
  (forall pk r, t !! pk = Some r -> p pk r = true -> q pk r = false) ->
  Orm.count (fun pk r => p pk r || q pk r) t
  = (Orm.count p t + Orm.count q t)%nat.
Proof.
  intros Hdis. unfold Orm.count, Orm.rows.
  assert (H : forall kv, In kv (map_to_list t) ->
                         p kv.1 kv.2 = true -> q kv.1 kv.2 = false).
  { intros [pk r] Hin. apply Hdis.
    apply list_elem_of_In, elem_of_map_to_list in Hin. exact Hin. }
  induction (map_to_list t) as [|kv l IH]; simpl; [reflexivity|].
  specialize (IH (fun x Hx => H x (or_intror Hx))).
  pose proof (H kv (or_introl eq_refl)) as Hkv.
  destruct (p kv.1 kv.2), (q kv.1 kv.2); simpl; rewrite ?IH;
    first [lia | specialize (Hkv eq_refl); discriminate].
Qed.

Lemma count_le {A} (p q : Orm.QuerySet A) (t : gmap Z A) :
  (forall pk r, t !! pk = Some r -> p pk r = true -> q pk r = true) ->
  (Orm.count p t <= Orm.count q t)%nat.
Proof.
  intros Himp. unfold Orm.count, Orm.rows.
  assert (H : forall kv, In kv (map_to_list t) ->
                         p kv.1 kv.2 = true -> q kv.1 kv.2 = true).
  { intros [pk r] Hin. apply Himp.
    apply list_elem_of_In, elem_of_map_to_list in Hin. exact Hin. }
  induction (map_to_list t) as [|kv l IH]; simpl; [lia|].
  specialize (IH (fun x Hx => H x (or_intror Hx))).
  pose proof (H kv (or_introl eq_refl)) as Hkv.
  destruct (p kv.1 kv.2); simpl.
  - rewrite (Hkv eq_refl). simpl. lia.
  - destruct (q kv.1 kv.2); simpl; lia.
Qed.

Lemma count_key {A} (p : Orm.QuerySet A) (t : gmap Z A) (k : Z) :
  Orm.count (fun pk r => (pk =? k) && p pk r) t
  = match t !! k with
    | Some r => if p k r then 1%nat else 0%nat
    | None => 0%nat
    end.
Proof.
  induction t as [|pk r t Hfree IH] using map_ind.
  - rewrite count_empty, lookup_empty. reflexivity.
  - rewrite count_insert by exact Hfree. rewrite IH, lookup_insert.
    destruct (decide (pk = k)) as [->|Hne].
    + rewrite Z.eqb_refl, Hfree. simpl. destruct (p k r); reflexivity.
    + apply Z.eqb_neq in Hne. rewrite Hne. reflexivity.
Qed.

(** ** A decided request stays as it is *)

Lemma run_bulk_keeps_decided a request queryset w pk r :
  borrow_requests (db w) !! pk = Some r -> br_status r <> PENDING ->
  borrow_requests (db (exec (run_bulk a request queryset) w)) !! pk = Some r.
Proof.
  intros Hr Hs.
  assert (Hnp : is_pending pk r = false)
    by (apply bool_decide_eq_false; exact Hs).
  destruct a; cbn [run_bulk].
  - rewrite approve_selected_requests, update_lookup, Hr; simpl.
    unfold Orm.filter. rewrite Hnp, andb_false_r. reflexivity.
  - rewrite reject_selected_requests; cbv zeta. destruct (truthy _); [|exact Hr].
    rewrite update_lookup, Hr; simpl.
    unfold Orm.filter. rewrite Hnp, andb_false_r. reflexivity.
  - rewrite mark_selected_expired_requests, update_lookup, Hr; simpl.
    unfold Orm.filter. rewrite Hnp, andb_false_l, andb_false_r. reflexivity.
Qed.

Lemma run_requests_other_tables op w :
  match op with
  | OpBulk _ _ _ => True
  | _ => borrow_requests (db (run op w)) = borrow_requests (db w)
  end.
Proof.
  destruct op; cbn [run]; try exact I; run_action; try reflexivity.
  - destruct (negb _); reflexivity.
  - unfold create_loan. destruct (loans (db w) !! pk); [reflexivity|].
    destruct (has_borrowed_loan _ _); reflexivity.
Qed.

(** X1. Once a borrow request is no longer PENDING, no sequence of admin
    operations (user, request or loan actions, in any order and with any
    selections) changes any of its fields. *)
Theorem decided_request_is_final
  (ops : list Operation) (w : World) (pk : Z) (r : BorrowRequest) :
  borrow_requests (db w) !! pk = Some r ->
  br_status r <> PENDING ->
  borrow_requests (db (run_all ops w)) !! pk = Some r.
Proof.
  intros Hr Hs. revert w Hr. unfold run_all.
  induction ops as [|op ops IH]; intros w Hr; simpl; [exact Hr|].
  apply IH. pose proof (run_requests_other_tables op w) as Hother.
  destruct op; try (rewrite Hother; exact Hr).
  cbn [run]. apply run_bulk_keeps_decided; assumption.
Qed.

(** Request 3 of [world0], approved, through an expiry run, a rejection
    and a loan action. *)
Lemma decided_request_is_final_witness :
  borrow_requests
    (db (run_all [OpBulk MarkSelectedExpired request0 Orm.all;
                  OpBulk ApproveSelected request0 Orm.all;
                  OpMarkOverdueDue request0 Orm.all] world0)) !! 3
  = Some (sample_request (Date 2024 2 15) APPROVED).
Proof.
  apply (decided_request_is_final _ world0 3
           (sample_request (Date 2024 2 15) APPROVED)).
  - vm_compute. reflexivity.
  - discriminate.
Defined.

(** ** Running an action twice *)

Lemma update_twice {A} (qs : Orm.QuerySet A) (set : A -> A) (t : gmap Z A) :
  (forall pk r, qs pk r = true -> qs pk (set r) = true -> set (set r) = set r) ->
  (Orm.update qs set (Orm.update qs set t).2).2 = (Orm.update qs set t).2.
Proof.
  intros Hset. apply map_eq; intros pk. rewrite !update_lookup.
  destruct (t !! pk) as [r|]; simpl; [|reflexivity]. f_equal.
  destruct (qs pk r) eqn:E1.
  - destruct (qs pk (set r)) eqn:E2; [apply (Hset pk); assumption|reflexivity].
  - rewrite E1. reflexivity.
Qed.

(** The database each action leaves. *)
Lemma activate_users_db request queryset w :
  db (exec (activate_users request queryset) w)
  = with_users (Orm.update queryset (set_is_active true) (users (db w))).2 (db w).
Proof. reflexivity. Qed.

Lemma deactivate_users_db request queryset w :
  db (exec (deactivate_users request queryset) w)
  = with_users
      (Orm.update (Orm.exclude queryset (fun pk _ => pk =? user request))
         (set_is_active false) (users (db w))).2 (db w).
Proof. reflexivity. Qed.

Lemma approve_selected_db request queryset w :
  db (exec (approve_selected request queryset) w)
  = with_borrow_requests
      (Orm.update (Orm.filter queryset is_pending)
         (decide_request APPROVED (now request) (user request) "")
         (borrow_requests (db w))).2 (db w).
Proof. reflexivity. Qed.

Lemma reject_selected_db request queryset w :
  db (exec (reject_selected request queryset) w)
  = if truthy (strip (default "" (POST request !! "rejection_reason")))
    then with_borrow_requests
           (Orm.update (Orm.filter queryset is_pending)
              (decide_request REJECTED (now request) (user request)
                 (strip (default "" (POST request !! "rejection_reason"))))
              (borrow_requests (db w))).2 (db w)
    else db w.
Proof.
  unfold exec, reject_selected. destruct (truthy _); reflexivity.
Qed.

Lemma mark_selected_expired_db request queryset w :
  db (exec (mark_selected_expired request queryset) w)
  = with_borrow_requests
      (Orm.update
         (Orm.filter queryset
            (Orm.filter is_pending (requested_to_lt (dt_date (now request)))))
         (set_br_status EXPIRED) (borrow_requests (db w))).2 (db w).
Proof.
  unfold exec, mark_selected_expired, Admin.bind, update_borrow_requests.
  cbn [Orm.update fst snd]. destruct (negb _); reflexivity.
Qed.

Lemma mark_as_returned_db request queryset w :
  db (exec (mark_as_returned request queryset) w)
  = with_loans
      (Orm.update queryset (set_returned (dt_date (now request))) (loans (db w))).2
      (db w).
Proof. reflexivity. Qed.

Lemma mark_overdue_due_db request queryset w :
  db (exec (mark_overdue_due request queryset) w)
  = with_loans
      (Orm.update
         (Orm.filter queryset
            (fun _ l => date_ltb (due_date l) (dt_date (now request))
                        && bool_decide (ln_status l = BORROWED)))
         (set_ln_status OVERDUE) (loans (db w))).2 (db w).
Proof.
  unfold exec, mark_overdue_due, Admin.bind, update_loans.
  cbn [Orm.update fst snd]. destruct (negb _); reflexivity.
Qed.

(** X2. Submitting an admin action a second time with the same request and
    selection leaves the database as the first run left it: each of the
    seven actions is idempotent on the data (only a further message is
    queued). *)
Theorem admin_actions_idempotent
  (request : HttpRequest) (users_qs : Orm.QuerySet User)
  (requests_qs : Orm.QuerySet BorrowRequest) (loans_qs : Orm.QuerySet Loan)
  (w : World) :
  let twice {A} (action : Action A) := db (exec action (exec action w)) in
  let once {A} (action : Action A) := db (exec action w) in
  twice (activate_users request users_qs) = once (activate_users request users_qs)
  /\ twice (deactivate_users request users_qs)
     = once (deactivate_users request users_qs)
  /\ twice (approve_selected request requests_qs)
     = once (approve_selected request requests_qs)
  /\ twice (reject_selected request requests_qs)
     = once (reject_selected request requests_qs)
  /\ twice (mark_selected_expired request requests_qs)
     = once (mark_selected_expired request requests_qs)
  /\ twice (mark_as_returned request loans_qs)
     = once (mark_as_returned request loans_qs)
  /\ twice (mark_overdue_due request loans_qs)
     = once (mark_overdue_due request loans_qs).
Proof.
  cbv beta zeta.
  rewrite !activate_users_db, !deactivate_users_db, !approve_selected_db,
    !reject_selected_db, !mark_selected_expired_db, !mark_as_returned_db,
    !mark_overdue_due_db.
  destruct (truthy (strip (default "" (POST request !! "rejection_reason"))));
    unfold with_users, with_borrow_requests, with_loans; cbn [users
      borrow_requests borrow_request_items book_items loans];
    repeat split; f_equal; apply update_twice; intros; reflexivity.
Qed.

(** ** The numbers the actions report *)

(** X4. The number an action reports is the change of the dashboard counter
    of [admin_stats_api]: [approve_selected] and [mark_selected_expired]
    lower the count of pending requests by the number they report, and
    [mark_overdue_due] raises the count of overdue loans by the number it
    reports (reporting "No borrowed loans past due date" when that is 0). *)
Theorem reported_counts_are_dashboard_changes
  (book_count : nat) (request : HttpRequest)
  (requests_qs : Orm.QuerySet BorrowRequest) (loans_qs : Orm.QuerySet Loan)
  (w : World) :
  let stats (w' : World) := admin_stats_api book_count (db w') in
  (exists n,
     let after := exec (approve_selected request requests_qs) w in
     messages after
     = (messages w ++ [{| level := SUCCESS;
                          text := "Approved " ++ str_of_nat n ++ " request(s)" |}])%list
     /\ (requests_pending (stats after) + n = requests_pending (stats w))%nat)
  /\ (exists n,
        let after := exec (mark_selected_expired request requests_qs) w in
        messages after
        = (messages w ++
           [if (n =? 0)%nat
            then {| level := INFO;
                    text := "No pending requests past their requested_to date" |}
            else {| level := SUCCESS;
                    text := "Marked " ++ str_of_nat n ++ " request(s) as expired" |}])%list
        /\ (requests_pending (stats after) + n = requests_pending (stats w))%nat)
  /\ (exists n,
        let after := exec (mark_overdue_due request loans_qs) w in
        messages after
        = (messages w ++
           [if (n =? 0)%nat
            then {| level := INFO; text := "No borrowed loans past due date" |}
            else {| level := SUCCESS;
                    text := "Marked " ++ str_of_nat n ++ " loan(s) as overdue" |}])%list
        /\ (loans_overdue (stats after) = loans_overdue (stats w) + n)%nat).
Proof.
  cbv zeta. unfold admin_stats_api.
  cbn [requests_pending loans_overdue]. split; [|split].
  - exists (Orm.count (Orm.filter requests_qs is_pending) (borrow_requests (db w))).
    split; [reflexivity|].
    rewrite approve_selected_db. cbn [with_borrow_requests borrow_requests].
    rewrite count_update, Nat.add_comm, <- count_disjoint_or.
    + symmetry. apply count_ext. intros pk r _. unfold Orm.filter, Orm.all, is_pending.
      destruct (requests_qs pk r), (bool_decide_reflect (br_status r = PENDING));
        simpl; try reflexivity.
      all: destruct (bool_decide_reflect (br_status r = PENDING)); simpl;
        try reflexivity; contradiction.
    + intros pk r _. unfold Orm.filter, Orm.all, is_pending.
      destruct (requests_qs pk r), (bool_decide_reflect (br_status r = PENDING));
        simpl; try discriminate; reflexivity.
  - exists (Orm.count
              (Orm.filter requests_qs
                 (Orm.filter is_pending (requested_to_lt (dt_date (now request)))))
              (borrow_requests (db w))).
    split.
    { unfold exec, mark_selected_expired, Admin.bind, update_borrow_requests.
      cbn [Orm.update fst snd]. destruct (_ =? 0)%nat; reflexivity. }
    rewrite mark_selected_expired_db. cbn [with_borrow_requests borrow_requests].
    rewrite count_update, Nat.add_comm, <- count_disjoint_or.
    + symmetry. apply count_ext. intros pk r _.
      unfold Orm.filter, Orm.all, is_pending, requested_to_lt.
      destruct (requests_qs pk r), (date_ltb _ _),
        (bool_decide_reflect (br_status r = PENDING)); simpl; try reflexivity.
      all: destruct (bool_decide_reflect (br_status r = PENDING)); simpl;
        try reflexivity; contradiction.
    + intros pk r _. unfold Orm.filter, Orm.all, is_pending, requested_to_lt.
      destruct (requests_qs pk r), (date_ltb _ _),
        (bool_decide_reflect (br_status r = PENDING));
        simpl; try discriminate; reflexivity.
  - exists (Orm.count
              (Orm.filter loans_qs
                 (fun _ l => date_ltb (due_date l) (dt_date (now request))
                             && bool_decide (ln_status l = BORROWED)))
              (loans (db w))).
    split.
    { unfold exec, mark_overdue_due, Admin.bind, update_loans.
      cbn [Orm.update fst snd]. destruct (_ =? 0)%nat; reflexivity. }
    rewrite mark_overdue_due_db. cbn [with_loans loans].
    rewrite count_update, <- count_disjoint_or.
    + apply count_ext. intros pk l _. unfold Orm.filter, Orm.all.
      destruct (loans_qs pk l), (date_ltb _ _),
        (bool_decide_reflect (ln_status l = BORROWED)) as [Hb|Hb];
        simpl; try rewrite orb_false_r; try reflexivity.
      rewrite Hb. reflexivity.
    + intros pk l _. unfold Orm.filter, Orm.all. simpl.
      destruct (bool_decide_reflect (ln_status l = OVERDUE)) as [Ho|Ho];
        [|discriminate].
      intros _. rewrite Ho. rewrite (bool_decide_eq_false_2 _) by discriminate.
      rewrite !andb_false_r. reflexivity.
Qed.

(** ** Strings *)

Lemma str_app_cons (c : ascii) (r b : string) :
  String c r ++ b = String c (r ++ b).
Proof. reflexivity. Qed.


Lemma str_app_assoc (a b c : string) : (a ++ b) ++ c = a ++ b ++ c.
Proof.
  induction a as [|x r IH]; [reflexivity|].
  rewrite !str_app_cons, IH. reflexivity.
Qed.

Lemma str_length_app (a b : string) :
  String.length (a ++ b) = (String.length a + String.length b)%nat.
Proof.
  induction a as [|x r IH]; [reflexivity|].
  rewrite str_app_cons. simpl. rewrite IH. reflexivity.
Qed.

Lemma count_exclude_self (queryset : Orm.QuerySet User) (t : gmap Z User) (self : Z) :
  Orm.count queryset t
  = (Orm.count (Orm.exclude queryset (fun pk _ => (pk =? self)%Z)) t
     + match t !! self with
       | Some u => if queryset self u then 1 else 0
       | None => 0
       end)%nat.
Proof.
  rewrite <- (count_key queryset t self), <- count_disjoint_or.
  - apply count_ext. intros pk u _. unfold Orm.exclude.
    destruct (queryset pk u), (pk =? self); reflexivity.
  - intros pk u _. unfold Orm.exclude.
    destruct (queryset pk u), (pk =? self); simpl; try discriminate; reflexivity.
Qed.

(** X5. [deactivate_users] reports the number of selected users other than
    the requester, and mentions one skipped user exactly when the
    requester is among the selected; the two numbers add up to the size of
    the selection. The reported number bounds the drop of the dashboard's
    active-user count, which may be smaller: users who were inactive
    already are counted too. *)
Theorem deactivate_users_report
  (book_count : nat) (request : HttpRequest) (queryset : Orm.QuerySet User)
  (w : World) :
  let after := exec (deactivate_users request queryset) w in
  let self_selected :=
    match users (db w) !! user request with
    | Some u => queryset (user request) u
    | None => false
    end in
  exists updated,
    messages after
    = (messages w ++
       [{| level := SUCCESS;
           text := "Deactivated " ++ str_of_nat updated ++ " user(s)"
                   ++ (if self_selected then " (skipped 1 current user)" else "")
        |}])%list
    /\ (updated + (if self_selected then 1 else 0)
        = Orm.count queryset (users (db w)))%nat
    /\ (total_users (admin_stats_api book_count (db after))
        <= total_users (admin_stats_api book_count (db w)))%nat
    /\ (total_users (admin_stats_api book_count (db w))
        <= total_users (admin_stats_api book_count (db after)) + updated)%nat.
Proof.
  cbv zeta.
  exists (Orm.count (Orm.exclude queryset (fun pk _ => pk =? user request))
            (users (db w))).
  pose proof (count_exclude_self queryset (users (db w)) (user request)) as Hall.
  split; [|split; [|split]].
  - unfold exec, deactivate_users, Admin.bind, count_users, update_users,
      messages_success, add_message.
    cbn [Orm.update fst snd messages]. rewrite Hall.
    destruct (users (db w) !! user request) as [u|];
      [destruct (queryset (user request) u)|].
    + replace (Z.of_nat (_ + 1) - Z.of_nat _) with 1 by lia.
      cbn [Z.eqb Z.to_nat Pos.to_nat Pos.iter_op Nat.add].
      rewrite !str_app_assoc. reflexivity.
    + replace (Z.of_nat (_ + 0) - Z.of_nat _) with 0 by lia.
      cbn [Z.eqb]. reflexivity.
    + replace (Z.of_nat (_ + 0) - Z.of_nat _) with 0 by lia.
      cbn [Z.eqb]. reflexivity.
  - rewrite Hall. destruct (users (db w) !! user request) as [u|];
      [destruct (queryset (user request) u)|]; reflexivity.
  - rewrite deactivate_users_db. unfold admin_stats_api.
    cbn [total_users with_users users]. rewrite count_update.
    apply count_le. intros pk u _. unfold Orm.filter, Orm.all. simpl.
    destruct (Orm.exclude _ _ pk u); [discriminate|auto].
  - rewrite deactivate_users_db. unfold admin_stats_api.
    cbn [total_users with_users users]. rewrite count_update.
    rewrite <- count_disjoint_or.
    + apply count_le. intros pk u _. unfold Orm.filter, Orm.all. simpl.
      intros Hact. destruct (Orm.exclude _ _ pk u); simpl;
        [reflexivity|rewrite Hact; reflexivity].
    + intros pk u _. unfold Orm.filter, Orm.all. simpl.
      destruct (Orm.exclude _ _ pk u); [discriminate|reflexivity].
Qed.

(** ** The "Overdue (pending)" list filter *)

(** X8. The two choices of [OverdueRequestFilter] split the change list: a
    request of the list is shown under "yes" exactly when it is PENDING
    with [requested_to] strictly before today, under "no" exactly when it
    is not, and never under both; any other value of the parameter (also
    "Yes" or "YES") leaves the list unfiltered. *)
Theorem OverdueRequestFilter_partition
  (request : HttpRequest) (queryset : Orm.QuerySet BorrowRequest)
  (pk : Z) (r : BorrowRequest) :
  let shown v := OverdueRequestFilter_queryset v request queryset pk r in
  let overdue := br_status r = PENDING
                 /\ date_ltb (requested_to r) (dt_date (now request)) = true in
  (shown (Some "yes") = true <-> queryset pk r = true /\ overdue)
  /\ (shown (Some "no") = true <-> queryset pk r = true /\ ~ overdue)
  /\ (shown (Some "yes") && shown (Some "no") = false)
  /\ (shown (Some "yes") || shown (Some "no") = queryset pk r)
  /\ (forall v, v <> Some "yes" -> v <> Some "no" -> shown v = queryset pk r)
  /\ shown (Some "Yes") = queryset pk r.
Proof.
  cbv beta zeta.
  assert (Hyes : OverdueRequestFilter_queryset (Some "yes") request queryset pk r
                 = queryset pk r
                   && (is_pending pk r
                       && requested_to_lt (dt_date (now request)) pk r))
    by reflexivity.
  assert (Hno : OverdueRequestFilter_queryset (Some "no") request queryset pk r
                = queryset pk r
                  && negb (is_pending pk r
                           && requested_to_lt (dt_date (now request)) pk r))
    by reflexivity.
  assert (Hother : forall v, v <> Some "yes" -> v <> Some "no" ->
            OverdueRequestFilter_queryset v request queryset pk r
            = queryset pk r).
  { intros v Hy Hn. unfold OverdueRequestFilter_queryset.
    rewrite !bool_decide_eq_false_2 by assumption. reflexivity. }
  rewrite Hyes, Hno, (Hother (Some "Yes")) by discriminate.
  unfold is_pending, requested_to_lt.
  destruct (queryset pk r),
    (bool_decide_reflect (br_status r = PENDING)) as [Hp|Hp],
    (date_ltb (requested_to r) (dt_date (now request))); simpl;
    (split; [|split; [|split; [|split; [|split]]]]);
    try reflexivity; try exact Hother;
    (split; [intros H|intros (H1 & H2)]);
    try discriminate; try tauto;
    try (split; [reflexivity|]; intros (H3 & H4); first [discriminate|contradiction]);
    try (exfalso; apply H2; split; [assumption|reflexivity]).
Qed.

(** ** Users *)




(** ** Returned loans *)

(** X7. [mark_as_returned] does not look at the status of a loan: every
    selected loan, also an OVERDUE one or one that was RETURNED before, is
    set to RETURNED and stamped with today's date, its other fields
    staying; afterwards no [mark_overdue_due] changes it. *)
Theorem mark_as_returned_stamps_every_selected_loan
  (request : HttpRequest) (queryset : Orm.QuerySet Loan) (w : World)
  (pk : Z) (l : Loan) :
  loans (db w) !! pk = Some l ->
  queryset pk l = true ->
  let after := exec (mark_as_returned request queryset) w in
  let l' := set_returned (dt_date (now request)) l in
  loans (db after) !! pk = Some l'
  /\ ln_status l' = RETURNED
  /\ returned_at l' = Some (dt_date (now request))
  /\ (ln_book_item l' = ln_book_item l /\ due_date l' = due_date l
      /\ approved_from l' = approved_from l)
  /\ forall request2 queryset2,
       loans (db (exec (mark_overdue_due request2 queryset2) after)) !! pk
       = Some l'.
Proof.
  intros Hl Hsel. cbv zeta.
  assert (Hafter : loans (db (exec (mark_as_returned request queryset) w)) !! pk
                   = Some (set_returned (dt_date (now request)) l)).
  { rewrite mark_as_returned_loans, update_lookup, Hl. simpl.
    rewrite Hsel. reflexivity. }
  split; [exact Hafter|]. repeat split.
  intros request2 queryset2.
  rewrite mark_overdue_due_loans, update_lookup, Hafter. simpl.
  unfold Orm.filter. simpl. rewrite !andb_false_r. reflexivity.
Qed.

(** Loan 50 of [world0] on 1 March. *)
Lemma mark_as_returned_stamps_every_selected_loan_witness :
  loans (db (exec (mark_as_returned request0 Orm.all) world0)) !! 50
  = Some (set_returned (Date 2024 3 1) (sample_loan 101 (Date 2024 2 20) BORROWED)).
Proof.
  apply (mark_as_returned_stamps_every_selected_loan request0 Orm.all world0 50
           (sample_loan 101 (Date 2024 2 20) BORROWED)).
  - vm_compute. reflexivity.
  - reflexivity.
Defined.

(** ** Display helpers of the admin *)

Lemma length_substring_prefix (n : nat) (s : string) :
  String.length (substring 0 n s) = Nat.min n (String.length s).
Proof.
  revert s. induction n as [|n IH]; intros [|c r]; simpl; try reflexivity.
  rewrite IH. reflexivity.
Qed.

(** X9. The "Rejection Reason" column never shows more than 50 characters: it
    shows "-" for an empty reason, the stripped reason when that has at
    most 50 characters (nothing at all for a reason made of blanks), and
    otherwise its first 47 characters followed by three dots. *)
Theorem rejection_reason_short_at_most_50 (obj : BorrowRequest) :
  let text := strip (rejection_reason obj) in
  let shown := rejection_reason_short obj in
  (String.length shown <= 50)%nat
  /\ (rejection_reason obj = "" -> shown = "-")
  /\ (rejection_reason obj <> "" -> (String.length text <= 50)%nat ->
      shown = text)
  /\ ((50 < String.length text)%nat ->
      shown = substring 0 47 text ++ "..."
      /\ String.length shown = 50%nat).
Proof.
  cbv zeta. unfold rejection_reason_short.
  destruct (rejection_reason obj) as [|c r] eqn:Hreason; cbn [truthy negb].
  - split; [simpl; lia|]. split; [reflexivity|]. split; [congruence|].
    simpl. lia.
  - set (text := strip (String c r)).
    assert (Hlong : (50 < String.length text)%nat ->
              String.length (substring 0 47 text ++ "...") = 50%nat).
    { intros H. rewrite str_length_app, length_substring_prefix.
      change (String.length "...") with 3%nat. lia. }
    destruct (Nat.ltb_spec 50 (String.length text)) as [Hgt|Hle].
    + split; [rewrite Hlong by exact Hgt; lia|]. split; [discriminate|].
      split; [intros _ H; lia|]. intros _. split; [reflexivity|auto].
    + split; [exact Hle|]. split; [discriminate|].
      split; [reflexivity|]. intros H. lia.
Qed.

Lemma clean_fieldsets_flat_map (fieldsets cleaned : list Fieldset) :
  clean_fieldsets fieldsets cleaned
  = (cleaned ++ flat_map clean_one fieldsets)%list.
Proof.
  revert cleaned. induction fieldsets as [|[name opts] rest IH]; intros cleaned.
  - simpl. rewrite app_nil_r. reflexivity.
  - cbn [clean_fieldsets flat_map]. unfold clean_one at 1. cbn [fst snd].
    destruct (List.filter _ _) as [|f fs].
    + rewrite IH. reflexivity.
    + rewrite IH, <- app_assoc. reflexivity.
Qed.

Lemma filter_password_twice (fields : list string) :
  List.filter (fun f => negb (String.eqb f "password"))
    (List.filter (fun f => negb (String.eqb f "password")) fields)
  = List.filter (fun f => negb (String.eqb f "password")) fields.
Proof.
  induction fields as [|f fs IH]; simpl; [reflexivity|].
  destruct (negb (String.eqb f "password")) eqn:E; simpl; rewrite ?E, IH;
    reflexivity.
Qed.

Lemma clean_one_twice (section : Fieldset) :
  flat_map clean_one (clean_one section) = clean_one section.
Proof.
  destruct section as [name opts].
  assert (Hone : forall o, clean_one (name, o)
            = match List.filter (fun f => negb (String.eqb f "password"))
                      (default [] (o !! "fields")) with
              | [] => []
              | f :: fs => [(name, <["fields" := f :: fs]> o)]
              end).
  { intros o. unfold clean_one. cbn [fst snd].
    destruct (List.filter _ _); reflexivity. }
  rewrite (Hone opts).
  destruct (List.filter _ (default [] (opts !! "fields"))) as [|f fs] eqn:E;
    [reflexivity|].
  assert (Hkept : List.filter (fun x => negb (String.eqb x "password")) (f :: fs)
                  = f :: fs)
    by (rewrite <- E; apply filter_password_twice).
  cbn [flat_map]. rewrite app_nil_r, Hone, lookup_insert_eq.
  change (default [] (Some (f :: fs))) with (f :: fs).
  rewrite Hkept, insert_insert_eq. reflexivity.
Qed.

(** X10. On the change form [UserAdmin.get_fieldsets] returns sections that
    all have a non-empty [fields] entry without "password"; it drops
    nothing else: a section whose fields are non-empty and hold no
    "password" is returned as it is; cleaning twice is cleaning once. On
    the add form (no object) the field sets come back untouched. *)
Theorem get_fieldsets_hides_password {A} (fieldsets : list Fieldset) (obj : A) :
  get_fieldsets fieldsets (@None A) = fieldsets
  /\ (forall name opts,
        In (name, opts) (get_fieldsets fieldsets (Some obj)) ->
        exists f fs, opts !! "fields" = Some (f :: fs)
                     /\ ~ In "password" (f :: fs))
  /\ (forall name opts f fs,
        In (name, opts) fieldsets ->
        opts !! "fields" = Some (f :: fs) -> ~ In "password" (f :: fs) ->
        In (name, opts) (get_fieldsets fieldsets (Some obj)))
  /\ (length (get_fieldsets fieldsets (Some obj)) <= length fieldsets)%nat
  /\ get_fieldsets (get_fieldsets fieldsets (Some obj)) (Some obj)
     = get_fieldsets fieldsets (Some obj).
Proof.
  unfold get_fieldsets. rewrite !clean_fieldsets_flat_map. cbn [app].
  split; [reflexivity|]. split; [|split; [|split]].
  - intros name opts Hin. apply in_flat_map in Hin as ([n o] & _ & Hin).
    unfold clean_one in Hin. cbn [fst snd] in Hin.
    destruct (List.filter _ _) as [|f fs] eqn:E; [contradiction|].
    destruct Hin as [[= <- <-]|[]]. exists f, fs.
    split; [apply lookup_insert_eq|].
    rewrite <- E. intros Hpw. apply filter_In in Hpw as [_ Hpw].
    discriminate Hpw.
  - intros name opts f fs Hin Hfields Hnopw. apply in_flat_map.
    exists (name, opts). split; [exact Hin|].
    unfold clean_one. cbn [fst snd]. rewrite Hfields.
    change (default [] (Some (f :: fs))) with (f :: fs).
    assert (Hsame : List.filter (fun x => negb (String.eqb x "password")) (f :: fs)
                    = f :: fs).
    { apply forallb_filter_id, forallb_forall. intros x Hx.
      apply negb_true_iff, String.eqb_neq. intros ->. exact (Hnopw Hx). }
    rewrite Hsame, insert_id by exact Hfields. left. reflexivity.
  - induction fieldsets as [|s rest IH]; [simpl; lia|].
    cbn [flat_map]. rewrite length_app. unfold clean_one at 1.
    destruct (List.filter _ _); simpl; lia.
  - induction fieldsets as [|s rest IH]; [reflexivity|].
    cbn [flat_map]. rewrite flat_map_app, IH, clean_one_twice. reflexivity.
Qed.

(** ** Stripping *)








Lemma lstrip_twice (s : string) : lstrip (lstrip s) = lstrip s.
Proof.
  induction s as [|c r IH]; [reflexivity|]. simpl.
  destruct (isspace c) eqn:E; [exact IH|]. simpl. rewrite E. reflexivity.
Qed.






(** ** Numbers written and read back *)








(** ** Dates written and read back *)

Lemma forallb_range (check : Z -> bool) (hi : Z) (n : Z) :
  forallb check (map Z.of_nat (seq 1 (Z.to_nat hi))) = true ->
  1 <= n <= hi -> check n = true.
Proof.
  intros Hall Hn. rewrite forallb_forall in Hall. apply Hall.
  apply in_map_iff. exists (Z.to_nat n). split; [lia|].
  apply in_seq. lia.
Qed.

Lemma reads_back_years :
  forallb reads_back4 (map Z.of_nat (seq 1 (Z.to_nat 9999))) = true.
Proof. vm_compute. reflexivity. Qed.

Lemma reads_back_days :
  forallb reads_back2 (map Z.of_nat (seq 1 (Z.to_nat 31))) = true.
Proof. vm_compute. reflexivity. Qed.

Lemma list_ascii_of_string_app (a b : string) :
  list_ascii_of_string (a ++ b)
  = (list_ascii_of_string a ++ list_ascii_of_string b)%list.
Proof.
  induction a as [|c r IH]; [reflexivity|].
  rewrite str_app_cons. simpl. rewrite IH. reflexivity.
Qed.

Lemma days_in_month_le_31 (y m : Z) : days_in_month y m <= 31.
Proof.
  unfold days_in_month.
  destruct (m =? 2); [destruct (is_leap y); lia|].
  destruct (_ || _)%bool; lia.
Qed.

Lemma fromisoformat_isoformat (d : date) :
  valid_date d = true -> fromisoformat (isoformat d) = Ok d.
Proof.
  destruct d as [y m dd]. unfold valid_date. cbn [year month day].
  rewrite !andb_true_iff, !Z.leb_le.
  intros (((((Hy1 & Hy2) & Hm1) & Hm2) & Hd1) & Hd2).
  pose proof (days_in_month_le_31 y m) as H31.
  pose proof (forallb_range _ 9999 y reads_back_years ltac:(lia)) as Ry.
  pose proof (forallb_range _ 31 m reads_back_days ltac:(lia)) as Rm.
  pose proof (forallb_range _ 31 dd reads_back_days ltac:(lia)) as Rd.
  unfold reads_back4 in Ry. unfold reads_back2 in Rm, Rd.
  unfold fromisoformat, parse_iso_date, isoformat. cbn [year month day].
  rewrite !list_ascii_of_string_app.
  destruct (list_ascii_of_string (zfill 4 (str_of_Z y)))
    as [|y1 [|y2 [|y3 [|y4 [|? ?]]]]]; try discriminate Ry.
  destruct (list_ascii_of_string (zfill 2 (str_of_Z m)))
    as [|m1 [|m2 [|? ?]]]; try discriminate Rm.
  destruct (list_ascii_of_string (zfill 2 (str_of_Z dd)))
    as [|d1 [|d2 [|? ?]]]; try discriminate Rd.
  apply andb_true_iff in Ry as [Ry1 Ry2].
  apply bool_decide_eq_true in Ry1, Ry2, Rm, Rd.
  cbn [list_ascii_of_string app]. rewrite Ry1, Ry2, Rm, Rd.
  cbv zeta. replace (100 * (y / 100) + y mod 100) with y
    by (rewrite <- Z.div_mod; lia).
  repeat match goal with
         | |- context [(?a <=? ?b)] =>
             rewrite (proj2 (Z.leb_le a b)) by assumption
         end.
  reflexivity.
Qed.

(** X12. A date written by [isoformat] is read back by [_parse_date]: the
    dates the export prints are accepted by its [created_from] and
    [created_to] filters. *)
Theorem _parse_date_reads_isoformat (d : date) :
  valid_date d = true ->
  Exports._parse_date (Some (isoformat d)) = Ok (Some d).
Proof.
  intros Hvalid. rewrite _parse_date_value. unfold date_value.
  rewrite fromisoformat_isoformat by exact Hvalid. reflexivity.
Qed.

(** The leap day of 2024. *)
Lemma _parse_date_reads_isoformat_witness :
  Exports._parse_date (Some (isoformat (Date 2024 2 29)))
  = Ok (Some (Date 2024 2 29)).
Proof.
  apply (_parse_date_reads_isoformat (Date 2024 2 29)). reflexivity.
Defined.

(** ** More on [build_book_queryset] *)

Import Py PyLib Models Admin Lifecycle Params Samples AdminMore Numerals.
Import KnownParams.

Ltac not_known Hk :=
  let E := fresh in
  intros E; apply Hk; rewrite E;
  repeat first [left; reflexivity | right].

(** X13. [build_book_queryset] reads the 25 keys of [known_params] and nothing
    else: any other parameter of the request, such as [include_items],
    [columns], [filename] or a page number, has no influence on the
    query. *)
Theorem build_book_queryset_ignores_other_params
  (params : gmap string string) (include_items : bool) (k v : string) :
  ~ In k known_params ->
  Exports.build_book_queryset (<[k := v]> params) include_items
  = Exports.build_book_queryset params include_items.
Proof.
  intros Hk. rewrite !build_book_queryset_value.
  unfold expected_filters, q_value, category_value, author_value,
    publisher_value, year_from_value, year_to_value, language_value,
    item_status_supplied, created_from_value, created_to_value, sort_value.
  rewrite !lookup_insert_ne by not_known Hk. reflexivity.
Qed.

(** The parameters of the export view itself. *)
Lemma build_book_queryset_ignores_other_params_witness :
  Exports.build_book_queryset
    (<["columns" := "id,title"]> {[ "sort" := "-title" ]}) true
  = Exports.build_book_queryset {[ "sort" := "-title" ]} true.
Proof.
  apply (build_book_queryset_ignores_other_params {[ "sort" := "-title" ]}
           true "columns" "id,title").
  intros Hin. vm_compute in Hin.
  repeat (destruct Hin as [Hin|Hin]; [discriminate Hin|]). exact Hin.
Defined.

Lemma or_first (v : string) (b : option string) :
  v <> "" -> or_ (Some v) b = Some v.
Proof. intros Hv. destruct v; [contradiction|reflexivity]. Qed.

Lemma or_blank (a b : option string) : blank a -> or_ a b = b.
Proof. intros [-> | ->]; reflexivity. Qed.

(** X14. The keys of a filter are tried in order and the first non-empty one
    decides, well formed or not: a non-empty [category_id] alone fixes the
    category condition, whatever [categories__id__exact] and
    [category__id__exact] hold, and these are consulted, in this order,
    only when the keys before them are missing or empty. *)
Theorem category_parameter_precedence
  (params : gmap string string) (include_items : bool) (v : string) :
  v <> "" ->
  params !! "category_id" = Some v
  \/ (blank (params !! "category_id")
      /\ params !! "categories__id__exact" = Some v)
  \/ (blank (params !! "category_id")
      /\ blank (params !! "categories__id__exact")
      /\ params !! "category__id__exact" = Some v) ->
  exists qs,
    Exports.build_book_queryset params include_items = Ok qs
    /\ forall n, In (Exports.categories__id n) (Exports.filters qs)
                 <-> int v = Ok n.
Proof.
  intros Hv Hkeys. eexists. split; [apply build_book_queryset_value|].
  cbn [Exports.filters]. intros n. rewrite In_expected_filters.
  assert (Hcat : category_value params = Some v).
  { unfold category_value.
    destruct Hkeys as [H|[(H1 & H)|(H1 & H2 & H)]].
    - rewrite H, !or_first by exact Hv. reflexivity.
    - rewrite (or_blank _ _ H1), H, or_first by exact Hv. reflexivity.
    - rewrite (or_blank _ _ H1), (or_blank _ _ H2). exact H. }
  rewrite Hcat. unfold int_value.
  split.
  - intros H; repeat (destruct H as [H|H]);
      repeat match goal with
             | K : exists _, _ |- _ => destruct K as (? & ? & ?)
             | K : _ /\ _ |- _ => destruct K as (? & ?)
             end; try discriminate.
    destruct (int v); congruence.
  - intros H. right. left. exists n. rewrite H. auto.
Qed.

(** A malformed [category_id] in front of a usable alias. *)
Lemma category_parameter_precedence_witness :
  exists qs,
    Exports.build_book_queryset
      {[ "category_id" := "x"; "categories__id__exact" := "5" ]} false = Ok qs
    /\ forall n, In (Exports.categories__id n) (Exports.filters qs)
                 <-> int "x" = Ok n.
Proof.
  apply (category_parameter_precedence
           {[ "category_id" := "x"; "categories__id__exact" := "5" ]} false "x").
  - discriminate.
  - left. reflexivity.
Defined.

(** X15. The change-list parameter [publish_year], given alone, selects the
    books of exactly that year: it bounds the year from below and from
    above. *)
Theorem publish_year_alone_is_exact
  (params : gmap string string) (include_items : bool) (v : string) (y : Z) :
  blank (params !! "publish_year_from") ->
  blank (params !! "publish_year__gte") ->
  blank (params !! "publish_year_to") ->
  blank (params !! "publish_year__lte") ->
  params !! "publish_year" = Some v -> int v = Ok y ->
  exists qs,
    Exports.build_book_queryset params include_items = Ok qs
    /\ (forall n, In (Exports.publish_year__gte n) (Exports.filters qs)
                  <-> n = y)
    /\ (forall n, In (Exports.publish_year__lte n) (Exports.filters qs)
                  <-> n = y).
Proof.
  intros Hf Hg Ht Hl Hv Hy. eexists. split; [apply build_book_queryset_value|].
  cbn [Exports.filters].
  assert (Hfrom : int_value (year_from_value params) = Some y).
  { unfold year_from_value.
    rewrite (or_blank _ _ Hf), (or_blank _ _ Hg), Hv. unfold int_value.
    rewrite Hy. reflexivity. }
  assert (Hto : int_value (year_to_value params) = Some y).
  { unfold year_to_value.
    rewrite (or_blank _ _ Ht), (or_blank _ _ Hl), Hv. unfold int_value.
    rewrite Hy. reflexivity. }
  split; intros n; rewrite In_expected_filters, Hfrom, Hto; split.
  - intros H; repeat (destruct H as [H|H]);
      repeat match goal with
             | K : exists _, _ |- _ => destruct K as (? & ? & ?)
             | K : _ /\ _ |- _ => destruct K as (? & ?)
             end; try discriminate; congruence.
  - intros ->. do 4 right. left. eauto.
  - intros H; repeat (destruct H as [H|H]);
      repeat match goal with
             | K : exists _, _ |- _ => destruct K as (? & ? & ?)
             | K : _ /\ _ |- _ => destruct K as (? & ?)
             end; try discriminate; congruence.
  - intros ->. do 5 right. left. eauto.
Qed.

Lemma publish_year_alone_is_exact_witness :
  exists qs,
    Exports.build_book_queryset {[ "publish_year" := "1997" ]} false = Ok qs
    /\ (forall n, In (Exports.publish_year__gte n) (Exports.filters qs)
                  <-> n = 1997)
    /\ (forall n, In (Exports.publish_year__lte n) (Exports.filters qs)
                  <-> n = 1997).
Proof.
  apply (publish_year_alone_is_exact {[ "publish_year" := "1997" ]} false "1997");
    try (left; reflexivity); reflexivity.
Defined.

(** X16. Whatever the parameters, the query is annotated, distinct and ordered
    by exactly one key; [include_items] decides the prefetch of the loans
    of the copies and nothing else; and the text condition is there
    exactly when [q] is not blank, on the stripped text. *)
Theorem build_book_queryset_shape (params : gmap string string) :
  exists with_items without_items,
    Exports.build_book_queryset params true = Ok with_items
    /\ Exports.build_book_queryset params false = Ok without_items
    /\ Exports.prefetch_item_loans with_items = true
    /\ Exports.prefetch_item_loans without_items = false
    /\ Exports.filters with_items = Exports.filters without_items
    /\ Exports.ordering with_items = Exports.ordering without_items
    /\ length (Exports.ordering without_items) = 1%nat
    /\ Exports.is_distinct with_items = true
    /\ Exports.is_distinct without_items = true
    /\ Exports.annotated with_items = true
    /\ Exports.annotated without_items = true
    /\ forall s, In (Exports.text_icontains s) (Exports.filters without_items)
                 <-> s = strip (Py.or_str (params !! "q") "") /\ s <> "".
Proof.
  do 2 eexists. split; [apply build_book_queryset_value|].
  split; [apply build_book_queryset_value|].
  cbn [Exports.prefetch_item_loans Exports.filters Exports.ordering
         Exports.is_distinct Exports.annotated].
  repeat (split; [reflexivity|]).
  intros s. rewrite In_expected_filters. fold (q_value params). split.
  - intros H; repeat (destruct H as [H|H]);
      repeat match goal with
             | K : exists _, _ |- _ => destruct K as (? & ? & ?)
             | K : _ /\ _ |- _ => destruct K as (? & ?)
             end; try discriminate.
    match goal with K : _ = Exports.text_icontains _ |- _ => injection K as -> end.
    split; [reflexivity|]. intros E. rewrite E in *. discriminate.
  - intros (-> & Hne). left. split; [|reflexivity].
    destruct (q_value params); [contradiction|reflexivity].
Qed.

(** ** The sheets of the workbook *)

Section SheetProperties.
Context {float : Type}.
Variable round2 : float -> float.
Variable str_of_float : float -> string.
Variable item_status_display : ItemStatus -> string.
Variable loan_status_display : LoanStatus -> string.
Variable localtime_strftime : datetime -> string.

Abbreviation cell_len := (Exports.cell_len str_of_float).
Abbreviation column_width := (Exports.column_width str_of_float).
Abbreviation auto_size := (Exports.auto_size str_of_float).
Abbreviation render := 
  (Exports.render_books_workbook round2 str_of_float item_status_display
     loan_status_display localtime_strftime).

(** The running maximum of the auto-sizing loop. *)
Lemma max_len_fold (cells : list (@Exports.Cell float)) (start : Z) :
  let m := fold_left
             (fun max_len c =>
                match cell_len c with
                | Some length => if max_len <? length then length else max_len
                | None => max_len
                end) cells start in
  start <= m
  /\ (forall c n, In c cells -> cell_len c = Some n -> n <= m)
  /\ (m = start \/ exists c, In c cells /\ cell_len c = Some m).
Proof.
  cbv zeta. revert start.
  induction cells as [|c cells IH]; intros start; cbn [fold_left].
  - split; [lia|]. split; [intros ? ? []|left; reflexivity].
  - set (start' := match cell_len c with
                   | Some length => if start <? length then length else start
                   | None => start
                   end).
    destruct (IH start') as (Hge & Hall & Hex).
    assert (Hs : start <= start'
                 /\ (forall n, cell_len c = Some n -> n <= start')
                 /\ (start' = start \/ cell_len c = Some start')).
    { subst start'. destruct (cell_len c) as [n|].
      - destruct (Z.ltb_spec start n).
        + split; [lia|]. split; [intros ? [= ->]; lia|right; reflexivity].
        + split; [lia|]. split; [intros ? [= ->]; lia|left; reflexivity].
      - split; [lia|]. split; [discriminate|left; reflexivity]. }
    destruct Hs as (Hs1 & Hs2 & Hs3).
    split; [lia|]. split.
    + intros x n [<-|Hin] Hx; [specialize (Hs2 n Hx); lia|eauto].
    + destruct Hex as [Hex|(x & Hin & Hx)].
      * destruct Hs3 as [Hs3|Hs3]; [left; lia|].
        right. exists c. split; [left; reflexivity|]. rewrite Hex. exact Hs3.
      * right. exists x. split; [right; exact Hin|exact Hx].
Qed.

(** A column is as wide as its longest text plus two, and never wider
    than sixty. *)
Lemma column_width_spec (header : string) (cells : list (@Exports.Cell float)) :
  let w := column_width header cells in
  2 <= w <= 60
  /\ Z.min (Z.of_nat (String.length header) + 2) 60 <= w
  /\ (forall c n, In c cells -> cell_len c = Some n -> Z.min (n + 2) 60 <= w)
  /\ (w = 60
      \/ w = Z.of_nat (String.length header) + 2
      \/ exists c, In c cells /\ cell_len c = Some (w - 2)).
Proof.
  cbv zeta. unfold Exports.column_width.
  destruct (max_len_fold cells (Z.of_nat (String.length header)))
    as (Hge & Hall & Hex).
  cbv zeta in Hge, Hall, Hex.
  set (m := fold_left _ cells _) in *.
  split; [lia|]. split; [lia|]. split.
  - intros c n Hin Hc. specialize (Hall c n Hin Hc). lia.
  - destruct (Z.le_gt_cases 60 (m + 2)) as [Hbig|Hsmall].
    + left. lia.
    + right. rewrite Z.min_l by lia. destruct Hex as [->|(c & Hin & Hc)].
      * left. reflexivity.
      * right. exists c. split; [exact Hin|].
        replace (m + 2 - 2) with m by lia. exact Hc.
Qed.

(** A sheet made of a header row, data rows of the same length and the
    auto-sized widths of its columns. *)
Lemma auto_sized_sheet (headers : list string)
  (data : list (list (@Exports.Cell float))) :
  (forall row, In row data -> length row = length headers) ->
  let rows := map Exports.CStr headers :: data in
  let widths := auto_size headers data in
  (forall row, In row rows -> length row = length widths)
  /\ (forall i w, widths !! i = Some w ->
        2 <= w <= 60
        /\ forall row c n,
             In row rows -> row !! i = Some c -> cell_len c = Some n ->
             Z.min (n + 2) 60 <= w).
Proof.
  intros Hdata. cbv zeta. unfold Exports.auto_size. split.
  - intros row [<-|Hin]; rewrite length_imap;
      [apply length_map|apply Hdata, Hin].
  - intros i w Hw. rewrite list_lookup_imap in Hw.
    destruct (headers !! i) as [h|] eqn:Hh; [|discriminate].
    injection Hw as <-.
    destruct (column_width_spec h (map (fun row => nth i row Exports.CNone) data))
      as (Hrange & Hhead & Hcells & _).
    split; [exact Hrange|].
    intros row c n [<-|Hin] Hc Hn.
    + rewrite list_lookup_fmap, Hh in Hc. injection Hc as <-.
      injection Hn as <-. exact Hhead.
    + apply (Hcells c n); [|exact Hn].
      apply in_map_iff. exists row. split; [|exact Hin].
      apply nth_lookup_Some. exact Hc.
Qed.

(** X17. Every sheet of the exported workbook is a rectangle: all its rows,
    the header row included, have as many cells as the sheet has column
    widths. Every width lies between 2 and 60, and a column is wide
    enough for each of its texts plus two characters, up to the cap of
    60. *)
Theorem workbook_sheets_are_rectangular
  (qs : list (@Exports.Book float)) (columns : option (list string))
  (include_items : bool) (sheet : @Exports.Worksheet float) :
  In sheet (render qs columns include_items) ->
  (forall row, In row (Exports.sheet_rows sheet) ->
               length row = length (Exports.column_widths sheet))
  /\ (forall i w, Exports.column_widths sheet !! i = Some w ->
        2 <= w <= 60
        /\ forall row c n,
             In row (Exports.sheet_rows sheet) -> row !! i = Some c ->
             cell_len c = Some n -> Z.min (n + 2) 60 <= w).
Proof.
  unfold Exports.render_books_workbook.
  set (cols := match columns with
               | Some (c :: cs) => c :: cs
               | _ => Exports.DEFAULT_BOOK_COLUMNS
               end).
  intros Hin.
  assert (Hbooks :
    forall row,
      In row (map (fun book => map (Exports._book_cell_value round2
                                      localtime_strftime book) cols) qs) ->
      length row
      = length (map (fun col => title_case (replace_char "_" " " col)) cols)).
  { intros row Hrow. apply in_map_iff in Hrow as (book & <- & _).
    rewrite !length_map. reflexivity. }
  assert (Hitems :
    forall row,
      In row (flat_map
                (fun book =>
                   map (Exports.item_row item_status_display
                          loan_status_display localtime_strftime book)
                       (Exports.items book)) qs) ->
      length row = length Exports.item_headers).
  { intros row Hrow. apply in_flat_map in Hrow as (book & _ & Hrow).
    apply in_map_iff in Hrow as (it & <- & _). reflexivity. }
  destruct include_items; cbn [In] in Hin.
  - destruct Hin as [<-|[<-|[]]]; cbn [Exports.sheet_rows Exports.column_widths].
    + exact (auto_sized_sheet _ _ Hbooks).
    + exact (auto_sized_sheet _ _ Hitems).
  - destruct Hin as [<-|[]]; cbn [Exports.sheet_rows Exports.column_widths].
    exact (auto_sized_sheet _ _ Hbooks).
Qed.

(** X18. A cell is left without a value only in the column
    [publisher_founded_year], for a book whose publisher has no founding
    year on record; a column name the export does not know gives the empty
    text, and so does a [publish_year] of 0. *)
Theorem _book_cell_value_none_only_for_founded_year
  (book : @Exports.Book float) (key : string) :
  let cell := Exports._book_cell_value round2 localtime_strftime book key in
  (cell = Exports.CNone ->
   key = "publisher_founded_year"
   /\ exists p, Exports.publisher book = Some p
                /\ Exports.founded_year p = None)
  /\ (~ In key (Exports.DEFAULT_BOOK_COLUMNS
                ++ ["authors_count"; "categories_count"]) ->
      cell = Exports.CStr "")
  /\ (key = "publish_year" -> Exports.publish_year book = Some 0 ->
      cell = Exports.CStr "").
Proof.
  cbv zeta. unfold Exports._book_cell_value. split; [|split].
  - repeat match goal with
           | |- context [String.eqb key ?k] =>
               destruct (String.eqb_spec key k) as [->|?]
           | |- context [Exports.str_in key ?l] => destruct (Exports.str_in key l)
           end; try discriminate;
      repeat match goal with
             | |- context [match ?x with _ => _ end] => destruct x eqn:?
             end; try discriminate.
    intros _. split; [reflexivity|]. eauto.
  - intros Hnot.
    assert (Hk : forall k, In k (Exports.DEFAULT_BOOK_COLUMNS
                                 ++ ["authors_count"; "categories_count"]) ->
                           String.eqb key k = false).
    { intros k Hin. apply String.eqb_neq. intros ->. exact (Hnot Hin). }
    assert (Hm : Exports.str_in key Exports.metric_keys = false).
    { unfold Exports.str_in, Exports.metric_keys. cbn [existsb].
      rewrite !Hk by (vm_compute; tauto). reflexivity. }
    rewrite Hm, !Hk by (vm_compute; tauto). reflexivity.
  - intros -> Hy. cbn. rewrite Hy. reflexivity.
Qed.


End SheetProperties.

(** Both sheets of the export of [sample_book]. *)
Lemma workbook_sheets_are_rectangular_witness :
  List.Forall
    (fun sheet =>
       List.Forall
         (fun row => length row = length (Exports.column_widths sheet))
         (Exports.sheet_rows sheet))
    (Exports.render_books_workbook sample_round2 sample_str_of_float
       sample_item_status_display sample_loan_status_display
       sample_localtime_strftime [sample_book] None true).
Proof.
  apply List.Forall_forall. intros sheet Hsheet.
  apply List.Forall_forall.
  apply (workbook_sheets_are_rectangular sample_round2 sample_str_of_float
           sample_item_status_display sample_loan_status_display
           sample_localtime_strftime [sample_book] None true sheet Hsheet).
Defined.

(** ** The dashboard views *)

Import Views.


Lemma int_raises_ValueError (s : string) (e : exn) :
  int s = Raise e -> e = ValueError.
Proof.
  unfold int.
  destruct (match strip s with
            | String "-"%char r => (true, r)
            | String "+"%char r => (false, r)
            | _ => (false, strip s)
            end) as [negative body].
  destruct (digits_value body AtStart 0); [discriminate|]. congruence.
Qed.

Lemma int_param_outcome (v : option string) (default : Z) :
  of_result
    (try_except_ValueError
       (match v with Some s => int s | None => Ok default end) (Ok default))
  = inr (param_int v default).
Proof.
  unfold param_int. destruct v as [s|]; [|reflexivity].
  destruct (int s) as [n|e] eqn:E; [reflexivity|].
  rewrite (int_raises_ValueError s e E). reflexivity.
Qed.

Lemma days_in_month_ge_28 (y m : Z) : 28 <= days_in_month y m.
Proof.
  unfold days_in_month.
  destruct (m =? 2); [destruct (is_leap y); lia|].
  destruct (_ || _)%bool; lia.
Qed.


Lemma count_by_lookup (key : Loan -> Z) (rows : list (Z * Loan)) (k : Z) :
  default 0 (count_by key rows !! k)
  = Z.of_nat (length (List.filter (fun kv => key kv.2 =? k) rows)).
Proof.
  induction rows as [|kv rows IH]; [reflexivity|].
  cbn [count_by foldr List.filter]. fold (count_by key rows).
  rewrite lookup_insert.
  destruct (decide (key kv.2 = k)) as [->|Hne].
  - rewrite Z.eqb_refl. cbn [default from_option length]. rewrite IH.
    unfold id. lia.
  - apply Z.eqb_neq in Hne. rewrite Hne. exact IH.
Qed.

Lemma total_one_match (a : Z) (l : list Z) :
  NoDup l -> a ∈ l ->
  total (map (fun k => if a =? k then 1 else 0) l) = 1.
Proof.
  intros Hnd Hin. induction Hnd as [|x l Hx Hnd IH]; [inversion Hin|].
  cbn [map total foldr]. fold (total (map (fun k => if a =? k then 1 else 0) l)).
  apply elem_of_cons in Hin as [->|Hin].
  - rewrite Z.eqb_refl.
    assert (Hzero : total (map (fun k => if x =? k then 1 else 0) l) = 0).
    { clear IH Hnd. induction l as [|y l IH]; [reflexivity|].
      cbn [map total foldr].
      fold (total (map (fun k => if x =? k then 1 else 0) l)).
      apply not_elem_of_cons in Hx as [Hxy Hx].
      apply Z.eqb_neq in Hxy. rewrite Hxy, IH by exact Hx. reflexivity. }
    rewrite Hzero. reflexivity.
  - assert (a <> x) by (intros ->; contradiction).
    rewrite (proj2 (Z.eqb_neq a x)) by assumption. rewrite IH by exact Hin.
    reflexivity.
Qed.

Lemma total_map_add (f g : Z -> Z) (l : list Z) :
  total (map (fun k => f k + g k) l) = total (map f l) + total (map g l).
Proof.
  unfold total. induction l as [|k l IH]; [reflexivity|].
  cbn [map foldr]. rewrite IH. lia.
Qed.

Lemma total_map_zero (l : list Z) : total (map (fun _ => 0) l) = 0.
Proof.
  unfold total. induction l as [|k l IH]; [reflexivity|].
  cbn [map foldr]. rewrite IH. reflexivity.
Qed.

(** Summing the counts over keys that cover all the rows counts the
    rows. *)
Lemma total_count_by (key : Loan -> Z) (rows : list (Z * Loan)) (keys : list Z) :
  NoDup keys ->
  (forall kv, In kv rows -> key kv.2 ∈ keys) ->
  total (map (fun k => default 0 (count_by key rows !! k)) keys)
  = Z.of_nat (length rows).
Proof.
  intros Hnd Hkeys.
  rewrite (map_ext _ _ (count_by_lookup key rows)).
  induction rows as [|kv rows IH].
  - apply total_map_zero.
  - specialize (IH (fun x Hx => Hkeys x (or_intror Hx))).
    rewrite (map_ext _
               (fun k => (if key kv.2 =? k then 1 else 0)
                         + Z.of_nat (length (List.filter
                                               (fun x => key x.2 =? k) rows)))).
    + rewrite total_map_add, IH, total_one_match;
        [cbn [length]; lia|exact Hnd|apply Hkeys; left; reflexivity].
    + intros k. cbn [List.filter].
      destruct (key kv.2 =? k); cbn [length]; lia.
Qed.

(** The month view starts on the first of a month and ends on the first
    of the next one. *)
Lemma stats_period_month_view (now : date) (GET : gmap string string) (p : Period) :
  stats_period now GET = inr p ->
  String.eqb (kind p) "year" = false ->
  1 <= p_month p <= 12
  /\ start p = Date (p_year p) (p_month p) 1
  /\ end_exclusive p = next_month_start (p_year p) (p_month p).
Proof.
  unfold stats_period. rewrite !int_param_outcome. cbn [and_then].
  generalize (lower (Py.or_str (GET !! "period") "month")). intros per.
  set (y := param_int (GET !! "year") (Py.year now)).
  set (m := Z.max 1 (Z.min 12 (param_int (GET !! "month") (Py.month now)))).
  destruct (String.eqb per "year") eqn:Hper.
  - unfold make_date. destruct (valid_date _); [|discriminate].
    destruct (valid_date _); [|discriminate]. cbn [and_then].
    intros [= <-]. cbn [kind]. congruence.
  - unfold make_date. destruct (valid_date _); [|discriminate].
    destruct (valid_date _); [|discriminate]. cbn [and_then].
    unfold add_one_day. cbn [year month day]. rewrite Z.ltb_irrefl.
    unfold next_month_start.
    destruct (m <? 12) eqn:Em; [|destruct (y <? 9999); [|discriminate]];
      cbn [and_then]; intros [= <-] _; cbn [p_month p_year start end_exclusive];
      rewrite Em; (split; [lia|split; reflexivity]).
Qed.

Lemma total_nonneg_count_by (key : Loan -> Z) (rows : list (Z * Loan)) (k : Z) :
  0 <= default 0 (count_by key rows !! k).
Proof. rewrite count_by_lookup. lia. Qed.

(** X22. The time series of the statistics accounts for every loan of the
    period exactly once: its values add up to the number of loans whose
    [approved_from] lies in the period. It has twelve values in a year
    view and one per day of the month in a month view, with as many labels
    as values. The loans are taken to hold calendar dates. *)
Theorem time_series_accounts_for_every_loan
  (now : date) (GET : gmap string string) (t : gmap Z Loan) (p : Period) :
  stats_period now GET = inr p ->
  (forall pk l, t !! pk = Some l -> valid_date (approved_from l) = true) ->
  let series := time_series p t in
  total (values series)
  = Z.of_nat (Orm.count (loans_in_period (start p) (end_exclusive p)) t)
  /\ length (labels series) = length (values series)
  /\ (kind p = "year" ->
      series_type series = "by_month" /\ length (values series) = 12%nat)
  /\ (kind p <> "year" ->
      series_type series = "by_day"
      /\ Z.of_nat (length (values series))
         = days_in_month (p_year p) (p_month p)).
Proof.
  intros Hp Hvalid. cbv zeta. unfold time_series, Orm.count.
  destruct (String.eqb (kind p) "year") eqn:Hkind;
    cbn [values labels series_type].
  - split; [|split; [|split]].
    + apply total_count_by; [apply NoDup_seqZ|].
      intros [pk l] Hin. apply rows_In in Hin as [Hl _].
      specialize (Hvalid pk l Hl). unfold valid_date in Hvalid.
      rewrite !andb_true_iff, !Z.leb_le in Hvalid.
      apply elem_of_seqZ. cbn [snd]. lia.
    + rewrite !length_map. reflexivity.
    + intros _. split; [reflexivity|]. rewrite length_map, length_seqZ. reflexivity.
    + intros Hne. apply String.eqb_eq in Hkind. contradiction.
  - destruct (stats_period_month_view now GET p Hp Hkind) as (Hm & Hstart & Hend).
    pose proof (days_in_month_ge_28 (p_year p) (p_month p)) as H28.
    split; [|split; [|split]].
    + apply total_count_by; [apply NoDup_seqZ|].
      intros [pk l] Hin. apply rows_In in Hin as [Hl Hin].
      specialize (Hvalid pk l Hl). unfold valid_date in Hvalid.
      rewrite !andb_true_iff, !Z.leb_le in Hvalid.
      apply elem_of_seqZ. cbn [snd].
      unfold loans_in_period in Hin. rewrite Hstart, Hend in Hin.
      apply andb_true_iff in Hin as [Hge Hlt]. apply negb_true_iff in Hge.
      unfold next_month_start, date_ltb in Hge, Hlt.
      destruct (approved_from l) as [ly lm ld]. cbn [year month day] in *.
      assert (ly = p_year p /\ lm = p_month p) as [-> ->].
      { destruct (Z.ltb_spec (p_month p) 12); cbn [year month day] in Hlt;
          repeat match type of Hge with
                 | context [?a <? ?b] => destruct (Z.ltb_spec a b)
                 | context [?a =? ?b] => destruct (Z.eqb_spec a b)
                 end;
          repeat match type of Hlt with
                 | context [?a <? ?b] => destruct (Z.ltb_spec a b)
                 | context [?a =? ?b] => destruct (Z.eqb_spec a b)
                 end;
          cbn in Hge, Hlt; try discriminate; lia. }
      lia.
    + rewrite !length_map. reflexivity.
    + intros Hy. apply String.eqb_neq in Hkind. contradiction.
    + intros _. split; [reflexivity|]. rewrite length_map, length_seqZ. lia.
Qed.

(** The year 2024 over the loans of [world0]. *)
Lemma time_series_accounts_for_every_loan_witness :
  total (values (time_series
                   {| kind := "year"; p_year := 2024; p_month := 3;
                      start := Date 2024 1 1; end_exclusive := Date 2025 1 1 |}
                   (loans (db world0))))
  = Z.of_nat (Orm.count (loans_in_period (Date 2024 1 1) (Date 2025 1 1))
                (loans (db world0))).
Proof.
  apply (time_series_accounts_for_every_loan (Date 2024 3 1)
           {[ "period" := "Year" ]} (loans (db world0))
           {| kind := "year"; p_year := 2024; p_month := 3;
              start := Date 2024 1 1; end_exclusive := Date 2025 1 1 |}).
  - vm_compute. reflexivity.
  - intros pk l Hl. unfold world0 in Hl. cbn [db loans] in Hl.
    apply lookup_singleton_Some in Hl as [_ <-]. reflexivity.
Defined.

(** ** What the admin actions leave alone *)

Lemma update_dom {A} (qs : Orm.QuerySet A) (set : A -> A) (t : gmap Z A) :
  dom (Orm.update qs set t).2 = dom t.
Proof.
  apply set_eq. intros pk. rewrite !elem_of_dom, update_lookup.
  destruct (t !! pk); simpl; split; intros [x Hx]; eauto; discriminate.
Qed.

Lemma update_keeps {A B} (qs : Orm.QuerySet A) (set : A -> A) (field : A -> B)
  (t : gmap Z A) (pk : Z) (r r' : A) :
  (forall x, field (set x) = field x) ->
  t !! pk = Some r -> (Orm.update qs set t).2 !! pk = Some r' ->
  field r' = field r.
Proof.
  intros Hfield Hr Hr'. rewrite update_lookup, Hr in Hr'. simpl in Hr'.
  injection Hr' as <-. destruct (qs pk r); [apply Hfield|reflexivity].
Qed.

Ltac keeps_fields H1 H2 :=
  repeat split;
  match type of H2 with
  | (Orm.update ?qs ?set _).2 !! _ = _ =>
      match goal with
      | |- ?f _ = ?f _ =>
          exact (update_keeps qs set f _ _ _ _ (fun _ => eq_refl) H1 H2)
      end
  end.

(** X3. No admin action adds or deletes a row of any table, and none touches
    the copies or the request items. An action on users changes nothing
    but [is_active]; an action on borrow requests leaves the requester and
    the requested period; an action on loans leaves the request, the copy,
    the start and the due date. *)
Theorem admin_actions_keep_rows
  (request : HttpRequest) (users_qs : Orm.QuerySet User)
  (requests_qs : Orm.QuerySet BorrowRequest) (loans_qs : Orm.QuerySet Loan)
  (w : World) (after : Db) :
  In after
     [db (exec (activate_users request users_qs) w);
      db (exec (deactivate_users request users_qs) w);
      db (exec (approve_selected request requests_qs) w);
      db (exec (reject_selected request requests_qs) w);
      db (exec (mark_selected_expired request requests_qs) w);
      db (exec (mark_as_returned request loans_qs) w);
      db (exec (mark_overdue_due request loans_qs) w)] ->
  dom (users after) = dom (users (db w))
  /\ dom (borrow_requests after) = dom (borrow_requests (db w))
  /\ dom (loans after) = dom (loans (db w))
  /\ book_items after = book_items (db w)
  /\ borrow_request_items after = borrow_request_items (db w)
  /\ (forall pk u u',
        users (db w) !! pk = Some u -> users after !! pk = Some u' ->
        username u' = username u /\ is_staff u' = is_staff u)
  /\ (forall pk r r',
        borrow_requests (db w) !! pk = Some r ->
        borrow_requests after !! pk = Some r' ->
        br_user r' = br_user r /\ requested_from r' = requested_from r
        /\ requested_to r' = requested_to r)
  /\ (forall pk l l',
        loans (db w) !! pk = Some l -> loans after !! pk = Some l' ->
        ln_request l' = ln_request l /\ ln_request_item l' = ln_request_item l
        /\ ln_book_item l' = ln_book_item l
        /\ approved_from l' = approved_from l /\ due_date l' = due_date l).
Proof.
  intros Hin.
  assert (Hsame : forall d : Db,
            after = d ->
            (users d = users (db w)
             \/ exists qs b, users d = (Orm.update qs (set_is_active b) (users (db w))).2) ->
            (borrow_requests d = borrow_requests (db w)
             \/ (exists qs s a b c,
                   borrow_requests d
                   = (Orm.update qs (decide_request s a b c) (borrow_requests (db w))).2)
             \/ exists qs s,
                  borrow_requests d
                  = (Orm.update qs (set_br_status s) (borrow_requests (db w))).2) ->
            (loans d = loans (db w)
             \/ (exists qs day, loans d = (Orm.update qs (set_returned day) (loans (db w))).2)
             \/ exists qs s, loans d = (Orm.update qs (set_ln_status s) (loans (db w))).2) ->
            book_items d = book_items (db w) ->
            borrow_request_items d = borrow_request_items (db w) ->
            dom (users after) = dom (users (db w))
            /\ dom (borrow_requests after) = dom (borrow_requests (db w))
            /\ dom (loans after) = dom (loans (db w))
            /\ book_items after = book_items (db w)
            /\ borrow_request_items after = borrow_request_items (db w)
            /\ (forall pk u u',
                  users (db w) !! pk = Some u -> users after !! pk = Some u' ->
                  username u' = username u /\ is_staff u' = is_staff u)
            /\ (forall pk r r',
                  borrow_requests (db w) !! pk = Some r ->
                  borrow_requests after !! pk = Some r' ->
                  br_user r' = br_user r /\ requested_from r' = requested_from r
                  /\ requested_to r' = requested_to r)
            /\ (forall pk l l',
                  loans (db w) !! pk = Some l -> loans after !! pk = Some l' ->
                  ln_request l' = ln_request l
                  /\ ln_request_item l' = ln_request_item l
                  /\ ln_book_item l' = ln_book_item l
                  /\ approved_from l' = approved_from l
                  /\ due_date l' = due_date l)).
  { intros d -> Hu Hr Hl Hb Hi.
    split; [destruct Hu as [->|(? & ? & ->)]; rewrite ?update_dom; reflexivity|].
    split; [destruct Hr as [->|[(? & ? & ? & ? & ? & ->)|(? & ? & ->)]];
            rewrite ?update_dom; reflexivity|].
    split; [destruct Hl as [->|[(? & ? & ->)|(? & ? & ->)]];
            rewrite ?update_dom; reflexivity|].
    split; [exact Hb|]. split; [exact Hi|]. split; [|split].
    - intros pk u u' H1 H2. destruct Hu as [Hu|(qs & b & Hu)]; rewrite Hu in H2.
      + rewrite H1 in H2. injection H2 as <-. auto.
      + keeps_fields H1 H2.
    - intros pk r r' H1 H2.
      destruct Hr as [Hr|[(? & ? & ? & ? & ? & Hr)|(? & ? & Hr)]];
        rewrite Hr in H2.
      + rewrite H1 in H2. injection H2 as <-. auto.
      + keeps_fields H1 H2.
      + keeps_fields H1 H2.
    - intros pk l l' H1 H2.
      destruct Hl as [Hl|[(? & ? & Hl)|(? & ? & Hl)]]; rewrite Hl in H2.
      + rewrite H1 in H2. injection H2 as <-. auto 6.
      + keeps_fields H1 H2.
      + keeps_fields H1 H2. }
  cbn [In] in Hin.
  destruct Hin as [H|[H|[H|[H|[H|[H|[H|[]]]]]]]]; symmetry in H.
  - rewrite activate_users_db in H. apply (Hsame _ H); try reflexivity.
    + right. exists users_qs, true. reflexivity.
    + left. reflexivity.
    + left. reflexivity.
  - rewrite deactivate_users_db in H. apply (Hsame _ H); try reflexivity.
    + right. eexists _, false. reflexivity.
    + left. reflexivity.
    + left. reflexivity.
  - rewrite approve_selected_db in H. apply (Hsame _ H); try reflexivity.
    + left. reflexivity.
    + right. left. do 5 eexists. reflexivity.
    + left. reflexivity.
  - rewrite reject_selected_db in H.
    destruct (truthy _) in H; apply (Hsame _ H); try reflexivity.
    + left. reflexivity.
    + right. left. do 5 eexists. reflexivity.
    + left. reflexivity.
    + left. reflexivity.
    + left. reflexivity.
    + left. reflexivity.
  - rewrite mark_selected_expired_db in H. apply (Hsame _ H); try reflexivity.
    + left. reflexivity.
    + right. right. do 2 eexists. reflexivity.
    + left. reflexivity.
  - rewrite mark_as_returned_db in H. apply (Hsame _ H); try reflexivity.
    + left. reflexivity.
    + left. reflexivity.
    + right. left. do 2 eexists. reflexivity.
  - rewrite mark_overdue_due_db in H. apply (Hsame _ H); try reflexivity.
    + left. reflexivity.
    + left. reflexivity.
    + right. right. do 2 eexists. reflexivity.
Qed.

(** The world after request 1 of [world0] is approved. *)
Lemma admin_actions_keep_rows_witness :
  dom (borrow_requests (db (exec (approve_selected request0 Orm.all) world0)))
  = dom (borrow_requests (db world0)).
Proof.
  apply (admin_actions_keep_rows request0 Orm.all Orm.all Orm.all world0
           (db (exec (approve_selected request0 Orm.all) world0))).
  cbn [In]. right. right. left. reflexivity.
Defined.
